(** * A shallow embedding of scrape_osgoode.py and scrape_outlines.py

    Python [str] values are modelled as [list ascii] (the ASCII part of
    Unicode, one code point per element); dictionary keys, which are all
    string literals in the source, are [string].  Python dicts are
    association lists that keep insertion order, as CPython dicts do.
    Browser operations (Playwright calls) are modelled by oracles that say,
    for each call the code makes, whether it returns a value or raises. *)

From Stdlib Require Import List String Ascii Bool Arith Lia ZArith.
Import ListNotations.
Open Scope list_scope.

Definition pystr := list ascii.

(** A string literal of the source as a [pystr]. *)
Definition lit (s : string) : pystr := list_ascii_of_string s.

(** ** Python string primitives *)

(** [str.isspace] (and the [\s] class of [re] for [str] patterns) on ASCII:
    tab, newline, vertical tab, form feed, carriage return, the four
    separators 0x1c-0x1f and space. *)
Definition is_space (c : ascii) : bool :=
  let n := nat_of_ascii c in
  ((9 <=? n) && (n <=? 13)) || ((28 <=? n) && (n <=? 32)).

(** [s.lstrip()] *)
Fixpoint lstrip (s : pystr) : pystr :=
  match s with
  | [] => []
  | c :: r => if is_space c then lstrip r else s
  end.

(** [s.rstrip()] *)
Definition rstrip (s : pystr) : pystr := rev (lstrip (rev s)).

(** [s.strip()] *)
Definition strip (s : pystr) : pystr := rstrip (lstrip s).

(** [s[:k]] for a Python int [k] (a negative bound counts from the end). *)
Definition slice_to (s : pystr) (k : Z) : pystr :=
  if (0 <=? k)%Z then firstn (Z.to_nat k) s
  else firstn (Z.to_nat (Z.of_nat (List.length s) + k)) s.

(** [s.lower()] on ASCII. *)
Definition lower_char (c : ascii) : ascii :=
  let n := nat_of_ascii c in
  if (65 <=? n) && (n <=? 90) then ascii_of_nat (n + 32) else c.

Definition lower (s : pystr) : pystr := map lower_char s.

(** [s.startswith(p)] *)
Fixpoint startswith (s p : pystr) {struct p} : bool :=
  match p, s with
  | [], _ => true
  | c :: p', d :: s' => Ascii.eqb c d && startswith s' p'
  | _ :: _, [] => false
  end.

(** [s.endswith(p)] *)
Definition endswith (s p : pystr) : bool := startswith (rev s) (rev p).

(** ** sanitize_filename (scrape_outlines.py) *)

(** The characters of the class of the first substitution: less-than,
    greater-than, colon, double quote (code 34), slash, backslash, bar,
    question mark and star. *)
Definition illegal_chars : pystr :=
  ["<"; ">"; ":"; ascii_of_nat 34; "/"; "\"; "|"; "?"; "*"]%char.

Definition is_illegal (c : ascii) : bool := existsb (Ascii.eqb c) illegal_chars.

(** The first [re.sub] of [sanitize_filename]: each such character becomes
    an underscore. *)
Definition sub_illegal (s : pystr) : pystr :=
  map (fun c => if is_illegal c then "_"%char else c) s.

(** [re.sub(r'\s+', ' ', name)]: every maximal run of whitespace becomes a
    single space ([inrun] says the previous character was whitespace, whose
    run has already been replaced). *)
Fixpoint collapse_ws (inrun : bool) (s : pystr) : pystr :=
  match s with
  | [] => []
  | c :: r =>
      if is_space c then
        if inrun then collapse_ws true r else " "%char :: collapse_ws true r
      else c :: collapse_ws false r
  end.

Definition sanitize_filename_at (name : pystr) (max_len : Z) : pystr :=
  let name := sub_illegal name in
  let name := strip (collapse_ws false name) in
  if (Z.of_nat (List.length name) >? max_len)%Z then rstrip (slice_to name max_len)
  else name.

(** The default argument [max_len: int = 200]. *)
Definition sanitize_filename (name : pystr) : pystr :=
  sanitize_filename_at name 200.

(** ** Shape of sanitized names *)

(** The string does not start with whitespace. *)
Definition head_ok (s : pystr) : bool :=
  match s with
  | c :: _ => negb (is_space c)
  | [] => true
  end.

(** No two adjacent whitespace characters. *)
Fixpoint no_adj (s : pystr) : bool :=
  match s with
  | [] => true
  | c :: r => (negb (is_space c) || head_ok r) && no_adj r
  end.

(** A character that may appear in a sanitized name: not illegal, and
    whitespace only as a plain space. *)
Definition ok_char (c : ascii) : bool :=
  negb (is_illegal c) && (negb (is_space c) || Ascii.eqb c " "%char).

(** No illegal character, whitespace only as single inner spaces. *)
Definition clean (s : pystr) : bool :=
  forallb ok_char s && no_adj s && head_ok s && head_ok (rev s).

(** ** The regular expressions of the Field Extractor

    Each [re.search] of scrape_osgoode.py is embedded as a matcher at one
    position ([span_at], [bold_at], [term_at]) and the leftmost-first scan
    [search_from].  A [\s*] followed by a literal [<] is greedy with a
    single outcome, which is [lstrip]; a lazy [(.*?)] under [re.DOTALL]
    followed by a lookahead or a literal is [lazy_until]. *)

(** [re.search]: the match at the leftmost position that has one. *)
Fixpoint search_from {A} (m : pystr -> option A) (s : pystr) : option A :=
  match m s with
  | Some g => Some g
  | None => match s with [] => None | _ :: r => search_from m r end
  end.

(** [(.*?)] followed by [term]: the shortest prefix after which [term]
    holds. *)
Fixpoint lazy_until (term : pystr -> bool) (s : pystr) : option pystr :=
  if term s then Some []
  else match s with
       | [] => None
       | c :: r => option_map (cons c) (lazy_until term r)
       end.

(** [label \s* </strong> (.*?) (?=term)] at the start of [s]. *)
Definition span_at (label : pystr) (term : pystr -> bool) (s : pystr)
  : option pystr :=
  if startswith s label then
    let t := lstrip (skipn (List.length label) s) in
    if startswith t (lit "</strong>") then lazy_until term (skipn 9 t)
    else None
  else None.

Definition desc_label : pystr := lit "<strong>Description:".
Definition eval_label : pystr := lit "<strong>Evaluation:".

(** [(?=<p><strong>|</p>\s*<p><strong>)] *)
Definition desc_term (t : pystr) : bool :=
  startswith t (lit "<p><strong>")
  || (startswith t (lit "</p>")
      && startswith (lstrip (skipn 4 t)) (lit "<p><strong>")).

(** [(?=<strong>Evaluation)] of the broader fallback. *)
Definition desc_fallback_term (t : pystr) : bool :=
  startswith t (lit "<strong>Evaluation").

(** [(?=</p>|</span>)] *)
Definition eval_term (t : pystr) : bool :=
  startswith t (lit "</p>") || startswith t (lit "</span>").

(** [re.sub(r'<[^>]+>', '', s)]: scanning left to right, a [<] followed by
    at least one character other than [>] and then a [>] is removed with
    them; any other character is kept.  [tag] holds the characters read
    since an opening [<] that is still waiting for its [>]. *)
Fixpoint strip_tags_in (tag : option pystr) (s : pystr) : pystr :=
  match s with
  | [] => match tag with None => [] | Some buf => "<"%char :: buf end
  | c :: r =>
      match tag with
      | None =>
          if Ascii.eqb c "<"%char then strip_tags_in (Some []) r
          else c :: strip_tags_in None r
      | Some [] =>
          if Ascii.eqb c ">"%char then "<"%char :: ">"%char :: strip_tags_in None r
          else strip_tags_in (Some [c]) r
      | Some buf =>
          if Ascii.eqb c ">"%char then strip_tags_in None r
          else strip_tags_in (Some (buf ++ [c])) r
      end
  end.

Definition strip_tags (s : pystr) : pystr := strip_tags_in None s.

(** Case-insensitive [startswith] ([re.IGNORECASE] on ASCII). *)
Definition startswith_ci (s p : pystr) : bool := startswith (lower s) (lower p).

(** A label of [extract_bold] is a regular expression; it is embedded as
    the list of the places where a match of it can end, in the order the
    backtracking matcher tries them. *)
Definition label_re := pystr -> list pystr.

(** A plain label such as [Credits]. *)
Definition lab_lit (w : pystr) : label_re :=
  fun s => if startswith_ci s w then [skipn (List.length w) s] else [].

(** [Max\.? Enrollment]: the greedy [\.?] first tries to take the dot. *)
Definition lab_max : label_re :=
  fun s =>
    if startswith_ci s (lit "Max") then
      let r := skipn 3 s in
      match r with
      | c :: r' => if Ascii.eqb c "."%char then lab_lit (lit " Enrollment") r' else []
      | [] => []
      end ++ lab_lit (lit " Enrollment") r
    else [].

(** [.*?w]: every place where [w] matches, shortest skip first. *)
Fixpoint lazy_rest (w : pystr) (s : pystr) : list pystr :=
  lab_lit w s ++ match s with [] => [] | _ :: r => lazy_rest w r end.

(** [Upper Year Research.*?Writing Requirement] *)
Definition lab_upper : label_re :=
  fun s =>
    if startswith_ci s (lit "Upper Year Research") then
      lazy_rest (lit "Writing Requirement") (skipn 19 s)
    else [].

(** The first candidate for which [f] succeeds. *)
Fixpoint first_some {A B} (f : A -> option B) (l : list A) : option B :=
  match l with
  | [] => None
  | x :: l' => match f x with Some g => Some g | None => first_some f l' end
  end.

(** [rf'{label}:\s*<b>(.*?)</b>'] with [re.DOTALL | re.IGNORECASE] at the
    start of [s]. *)
Definition bold_at (label : label_re) (s : pystr) : option pystr :=
  first_some
    (fun r =>
       if startswith r (lit ":") then
         let t := lstrip (skipn 1 r) in
         if startswith_ci t (lit "<b>") then
           lazy_until (fun u => startswith_ci u (lit "</b>")) (skipn 3 t)
         else None
       else None)
    (label s).

(** [extract_bold] *)
Definition extract_bold (html : pystr) (label : label_re) : pystr :=
  match search_from (bold_at label) html with
  | Some g => strip (strip_tags g)
  | None => []
  end.

(** [<b>(Fall|Winter|Year)</b>] at the start of [s]. *)
Definition term_at (s : pystr) : option pystr :=
  if startswith s (lit "<b>") then
    first_some
      (fun w => if startswith (skipn 3 s) (w ++ lit "</b>") then Some w else None)
      [lit "Fall"; lit "Winter"; lit "Year"]
  else None.

(** ** Exceptions and a state-and-exception monad *)

(** The outcome of a call that may raise an [Exception]; [Exc] carries
    [str(e)].  ([BaseException]s outside [Exception], which no [except]
    clause of the source catches, are not modelled.) *)
Inductive res (A : Type) : Type :=
| Ok (a : A)
| Exc (e : pystr).
Arguments Ok {A} a.
Arguments Exc {A} e.

(** A computation that updates a state [S] (a dict being filled, a list of
    saved paths, the trace of browser actions) and may raise; on a raise
    the updates made so far are kept, as Python's in-place mutations are. *)
Definition M (S A : Type) : Type := S -> S * res A.

Definition ret {S A} (a : A) : M S A := fun s => (s, Ok a).

Definition bind {S A B} (m : M S A) (k : A -> M S B) : M S B :=
  fun s => match m s with
           | (s', Ok a) => k a s'
           | (s', Exc e) => (s', Exc e)
           end.

Notation "x <- m ;; k" := (bind m (fun x => k))
  (at level 61, m at next level, right associativity).
Notation "m ;; k" := (bind m (fun _ => k))
  (at level 61, right associativity).

(** A browser call: its value, or its exception raised. *)
Definition lift {S A} (r : res A) : M S A := fun s => (s, r).

Definition modify {S} (f : S -> S) : M S unit := fun s => (f s, Ok tt).

(** [try: body except Exception as e: handler(str(e))] *)
Definition try_except {S} (body : M S unit) (handler : pystr -> M S unit)
  : M S unit :=
  fun s => match body s with
           | (s', Ok _) => (s', Ok tt)
           | (s', Exc e) => handler e s'
           end.

(** ** Python dicts *)

Definition dict (V : Type) : Type := list (string * V).

Fixpoint dict_get {V} (d : dict V) (k : string) : option V :=
  match d with
  | [] => None
  | (k', v) :: d' => if String.eqb k k' then Some v else dict_get d' k
  end.

(** [d[k] = v]: an existing key keeps its place, a new key goes last. *)
Fixpoint dict_set {V} (d : dict V) (k : string) (v : V) : dict V :=
  match d with
  | [] => [(k, v)]
  | (k', v') :: d' =>
      if String.eqb k k' then (k', v) :: d' else (k', v') :: dict_set d' k v
  end.

(** [d1.update(d2)] *)
Definition dict_update {V} (d1 d2 : dict V) : dict V :=
  fold_left (fun d kv => dict_set d (fst kv) (snd kv)) d2 d1.

(** [d[k]] (a [KeyError] when [k] is missing). *)
Definition dict_getitem {V} (d : dict V) (k : string) : res V :=
  match dict_get d k with
  | Some v => Ok v
  | None => Exc (lit "KeyError")
  end.

(** [data[k] = v] inside the monad. *)
Definition set_key {V} (k : string) (v : V) : M (dict V) unit :=
  modify (fun d => dict_set d k v).

(** ** scrape_description_page (scrape_osgoode.py) *)

Definition BASE_URL : pystr := lit "https://lwdomapp3.osgoode.yorku.ca/myosgoode.nsf".

(** What the browser does on one detail page, call by call: [page.goto]
    (given the url), [page.wait_for_timeout(500)], and the three
    [page.evaluate] scripts, which return [None] for JavaScript's [null]. *)
Record DetailPage := {
  dp_goto : pystr -> res unit;
  dp_wait : res unit;
  dp_main_html : res (option pystr);
  dp_main_text : res (option pystr);
  dp_sidebar_html : res (option pystr)
}.

(** [url = f"{BASE_URL}/{href}" if not href.startswith("http") else href] *)
Definition detail_url (href : pystr) : pystr :=
  if startswith href (lit "http") then href else BASE_URL ++ lit "/" ++ href.

(** The description and evaluation rules on the main content area. *)
Definition extract_main (main_html : pystr) : M (dict pystr) unit :=
  (match search_from (span_at desc_label desc_term) main_html with
   | Some g => set_key "description" (strip (strip_tags g))
   | None =>
       match search_from (span_at desc_label desc_fallback_term) main_html with
       | Some g => set_key "description" (strip (strip_tags g))
       | None => ret tt
       end
   end) ;;
  match search_from (span_at eval_label eval_term) main_html with
  | Some g => set_key "evaluation" (strip (strip_tags g))
  | None => ret tt
  end.

(** The sidebar metadata rules. *)
Definition extract_sidebar (sidebar_html : pystr) : M (dict pystr) unit :=
  set_key "term" [] ;;
  (match search_from term_at sidebar_html with
   | Some w => set_key "term" w
   | None => ret tt
   end) ;;
  set_key "sidebar_credits" (extract_bold sidebar_html (lab_lit (lit "Credits"))) ;;
  set_key "sidebar_hours" (extract_bold sidebar_html (lab_lit (lit "Hours"))) ;;
  set_key "max_enrollment" (extract_bold sidebar_html lab_max) ;;
  set_key "prerequisite_courses"
    (extract_bold sidebar_html (lab_lit (lit "Prerequisite Courses"))) ;;
  set_key "preferred_courses"
    (extract_bold sidebar_html (lab_lit (lit "Preferred Courses"))) ;;
  set_key "presentation" (extract_bold sidebar_html (lab_lit (lit "Presentation"))) ;;
  set_key "upper_year_writing" (extract_bold sidebar_html lab_upper) ;;
  set_key "praxicum_detail" (extract_bold sidebar_html (lab_lit (lit "Praxicum"))).

(** The body of the [try] ([if x:] is false for [None] and for [""]). *)
Definition scrape_description_body (page : DetailPage) (url : pystr)
  : M (dict pystr) unit :=
  lift (dp_goto page url) ;;
  lift (dp_wait page) ;;
  main_html <- lift (dp_main_html page) ;;
  (match main_html with
   | Some (c :: r) =>
       extract_main (c :: r) ;;
       main_text <- lift (dp_main_text page) ;;
       set_key "full_page_text"
         (match main_text with Some (d :: t) => strip (d :: t) | _ => [] end)
   | _ => ret tt
   end) ;;
  sidebar_html <- lift (dp_sidebar_html page) ;;
  match sidebar_html with
  | Some (c :: r) => extract_sidebar (c :: r)
  | _ => ret tt
  end.

(** [scrape_description_page(page, href)]: returns [data] in every case
    (the [print] of the handler is not modelled). *)
Definition scrape_description_page (page : DetailPage) (href : pystr)
  : dict pystr :=
  let url := detail_url href in
  fst (try_except (scrape_description_body page url)
                  (fun e => set_key "error" e) []).

(** ** The Row Parsers *)

(** What the browser reports about one [tr]: the link found by the
    family's selector ([td a[href*='syldescription.xsp']] for courses,
    [a[href*='/outlines2526.nsf/Courses/']] for outlines), as its
    [inner_text()] and its [href] attribute (present, since the selector
    tests it), and the [inner_text()] of every [td] cell. *)
Record Row := {
  row_link : option (pystr * pystr);
  row_cells : list pystr
}.

(** [cell_texts[i] if len(cell_texts) > i else ""] *)
Definition cell_at (cell_texts : list pystr) (i : nat) : pystr :=
  if i <? List.length cell_texts then nth i cell_texts [] else [].

(** The dict literal built by [scrape_links_from_table]. *)
Definition osgoode_entry (title href : pystr) (cell_texts : list pystr)
  : dict pystr :=
  [("title", title); ("href", href);
   ("instructor", cell_at cell_texts 1);
   ("section", cell_at cell_texts 2);
   ("hours", cell_at cell_texts 3);
   ("catalogue", cell_at cell_texts 4);
   ("number", cell_at cell_texts 5);
   ("credits", cell_at cell_texts 6);
   ("initial_demand", cell_at cell_texts 7);
   ("max", cell_at cell_texts 8);
   ("final", cell_at cell_texts 9);
   ("writing_requirement", cell_at cell_texts 10);
   ("praxicum", cell_at cell_texts 11)]%string.

(** [scrape_links_from_table] (scrape_osgoode.py) *)
Fixpoint scrape_links_from_table (rows : list Row) : list (dict pystr) :=
  match rows with
  | [] => []
  | row :: rest =>
      match row_link row with
      | None => scrape_links_from_table rest
      | Some (link_text, href) =>
          if List.length (row_cells row) <? 12 then scrape_links_from_table rest
          else osgoode_entry (strip link_text) href (map strip (row_cells row))
               :: scrape_links_from_table rest
      end
  end.

(** Values of the outline entries: strings, and the list [pdf_paths]. *)
Inductive pyval :=
| VStr (s : pystr)
| VList (l : list pystr).

(** The dict literal built by [scrape_course_links]. *)
Definition outlines_entry (title href : pystr) (cell_texts : list pystr)
  : dict pyval :=
  [("title", VStr title); ("href", VStr href);
   ("course_number", VStr (cell_at cell_texts 1));
   ("section", VStr (cell_at cell_texts 2));
   ("title_variance", VStr (cell_at cell_texts 3));
   ("term", VStr (cell_at cell_texts 4));
   ("professor", VStr (cell_at cell_texts 5))]%string.

(** [scrape_course_links] (scrape_outlines.py) *)
Fixpoint scrape_course_links (rows : list Row) : list (dict pyval) :=
  match rows with
  | [] => []
  | row :: rest =>
      match row_link row with
      | None => scrape_course_links rest
      | Some (link_text, href) =>
          outlines_entry (strip link_text) href (map strip (row_cells row))
          :: scrape_course_links rest
      end
  end.

(** ** The Crawl Orchestrator of scrape_osgoode.py *)

(** The browser actions recorded in a trace: activating the tab (the
    [click()] on the tab button, or [click_tab]) and visiting a detail
    page. *)
Inductive event := ENTER | VISIT.

Definition emit (ev : event) : M (list event) unit :=
  modify (fun t => t ++ [ev]).

(** The browser around row [i] of a tab: its detail page, the return to the
    table ([page.goto(COURSE_TABLE_URL, ...)] and the 500 ms wait) and the
    tab activation ([click()] and [wait_for_tab_load]). *)
Record RowWorld := {
  rw_page : DetailPage;
  rw_back : res unit;
  rw_click : res unit
}.

(** The browser for one tab: its first activation, the rows of the table
    then shown, and the browser around each row. *)
Record TabWorld := {
  tw_click : res unit;
  tw_rows : list Row;
  tw_row_world : nat -> RowWorld
}.

(** The inner [for i, entry in enumerate(entries)] loop of [main] (the
    [print] is kept for its [KeyError]s, which cannot happen). *)
Fixpoint osgoode_visit_rows (w : nat -> RowWorld) (i : nat)
  (entries : list (dict pystr)) : M (list event) (list (dict pystr)) :=
  match entries with
  | [] => ret []
  | entry :: rest =>
      _ <- lift (dict_getitem entry "title") ;;
      _ <- lift (dict_getitem entry "section") ;;
      href <- lift (dict_getitem entry "href") ;;
      emit VISIT ;;
      let detail := scrape_description_page (rw_page (w i)) href in
      let entry := dict_update entry detail in
      lift (rw_back (w i)) ;;
      emit ENTER ;;
      lift (rw_click (w i)) ;;
      rest' <- osgoode_visit_rows w (S i) rest ;;
      ret (entry :: rest')
  end.

(** The body of [for tab_name, button_id in TAB_BUTTONS.items()]. *)
Definition osgoode_tab (w : TabWorld) : M (list event) (list (dict pystr)) :=
  emit ENTER ;;
  lift (tw_click w) ;;
  let entries := scrape_links_from_table (tw_rows w) in
  osgoode_visit_rows (tw_row_world w) 0 entries.

Definition TAB_BUTTONS : list string :=
  ["Fall Courses"; "Fall Seminars"; "Winter Courses"; "Winter Seminars"]%string.

(** The loop over the tabs, filling [all_courses]. *)
Fixpoint osgoode_tabs (tabs : list (string * TabWorld))
  (all_courses : dict (list (dict pystr)))
  : M (list event) (dict (list (dict pystr))) :=
  match tabs with
  | [] => ret all_courses
  | (tab_name, w) :: rest =>
      entries <- osgoode_tab w ;;
      osgoode_tabs rest (dict_set all_courses tab_name entries)
  end.

Definition osgoode_crawl (w : string -> TabWorld)
  : list event * res (dict (list (dict pystr))) :=
  osgoode_tabs (map (fun t => (t, w t)) TAB_BUTTONS) [] [].

(** [total = sum(len(v) for v in all_courses.values())] *)
Definition osgoode_total (all_courses : dict (list (dict pystr))) : nat :=
  fold_right (fun kv n => List.length (snd kv) + n) 0 all_courses.

(** The numbers of the final [print]: [Saved {total} entries to ...]. *)
Definition osgoode_summary (all_courses : dict (list (dict pystr))) : list nat :=
  [osgoode_total all_courses].

(** ** download_pdf_from_course_page (scrape_outlines.py) *)

Definition OUT_BASE_URL : pystr := lit "https://lwdomapp1.osgoode.yorku.ca".

(** What the browser does on one outline page: [page.goto], the 500 ms
    wait, the script listing the [$File] links as [(href, name)] pairs,
    and per attachment url [context.request.get] (giving [resp.ok]),
    [resp.body()], and [dest.write_bytes(body)] (given the path). *)
Record PdfPage := {
  pp_goto : pystr -> res unit;
  pp_wait : res unit;
  pp_links : res (list (pystr * pystr));
  pp_get : pystr -> res bool;
  pp_body : pystr -> res unit;
  pp_write : pystr -> res unit
}.

(** [for x in l: f(x)] *)
Fixpoint for_each {S A} (f : A -> M S unit) (l : list A) : M S unit :=
  match l with
  | [] => ret tt
  | x :: l' => f x ;; for_each f l'
  end.

(** A value used where the code expects a [str]. *)
Definition py_str (v : pyval) : res pystr :=
  match v with
  | VStr s => Ok s
  | VList _ => Exc (lit "TypeError")
  end.

(** The body of [for link_info in pdf_links]; the state is [saved].
    [str(dest_dir / filename)] is [dest_dir + "/" + filename]. *)
Definition download_one (page : PdfPage) (dest_dir : pystr) (entry : dict pyval)
  (link_info : pystr * pystr) : M (list pystr) unit :=
  let (pdf_href, suggested_name) := link_info in
  let pdf_url := if startswith pdf_href (lit "http") then pdf_href
                 else OUT_BASE_URL ++ pdf_href in
  ok <- lift (pp_get page pdf_url) ;;
  if negb ok then ret tt
  else
    lift (pp_body page pdf_url) ;;
    filename <-
      (if match suggested_name with [] => false | _ => true end
          && (endswith (lower suggested_name) (lit ".pdf")
              || endswith (lower suggested_name) (lit ".docx")
              || endswith (lower suggested_name) (lit ".doc"))
       then ret (sanitize_filename suggested_name)
       else title <- lift (dict_getitem entry "title") ;;
            t <- lift (py_str title) ;;
            ret (sanitize_filename t ++ lit ".pdf")) ;;
    let dest := dest_dir ++ lit "/" ++ filename in
    lift (pp_write page dest) ;;
    modify (fun saved => saved ++ [dest]).

Definition download_body (page : PdfPage) (url dest_dir : pystr)
  (entry : dict pyval) : M (list pystr) unit :=
  lift (pp_goto page url) ;;
  lift (pp_wait page) ;;
  pdf_links <- lift (pp_links page) ;;
  match pdf_links with
  | [] => ret tt
  | _ => for_each (download_one page dest_dir entry) pdf_links
  end.

(** [download_pdf_from_course_page(page, context, href, dest_dir, entry)]:
    returns [saved] in every case (the handler only prints). *)
Definition download_pdf_from_course_page (page : PdfPage) (href dest_dir : pystr)
  (entry : dict pyval) : list pystr :=
  let url := if startswith href (lit "http") then href else OUT_BASE_URL ++ href in
  fst (try_except (download_body page url dest_dir entry) (fun _ => ret tt) []).

(** ** The Crawl Orchestrator of scrape_outlines.py *)

Record ORowWorld := {
  or_page : PdfPage;
  or_back : res unit;
  or_click : res unit
}.

Record OTabWorld := {
  ot_click : res unit;
  ot_rows : list Row;
  ot_row_world : nat -> ORowWorld
}.

(** The inner [for i, entry in enumerate(entries)] loop of [main];
    [tab_results] is the returned list. *)
Fixpoint outlines_visit_rows (w : nat -> ORowWorld) (i : nat) (dest_dir : pystr)
  (entries : list (dict pyval)) : M (list event) (list (dict pyval)) :=
  match entries with
  | [] => ret []
  | entry :: rest =>
      _ <- lift (dict_getitem entry "title") ;;
      _ <- lift (dict_getitem entry "course_number") ;;
      _ <- lift (dict_getitem entry "section") ;;
      _ <- lift (dict_getitem entry "professor") ;;
      hv <- lift (dict_getitem entry "href") ;;
      href <- lift (py_str hv) ;;
      emit VISIT ;;
      let saved := download_pdf_from_course_page (or_page (w i)) href dest_dir entry in
      let entry := match saved with
                   | [] => dict_set entry "pdf_paths" (VList [])
                   | _ => dict_set entry "pdf_paths" (VList saved)
                   end in
      lift (or_back (w i)) ;;
      emit ENTER ;;
      lift (or_click (w i)) ;;
      rest' <- outlines_visit_rows w (S i) dest_dir rest ;;
      ret (entry :: rest')
  end.

Definition outlines_tab (dest_dir : pystr) (w : OTabWorld)
  : M (list event) (list (dict pyval)) :=
  emit ENTER ;;
  lift (ot_click w) ;;
  let entries := scrape_course_links (ot_rows w) in
  outlines_visit_rows (ot_row_world w) 0 dest_dir entries.

(** [TABS]: tab name and destination folder. *)
Definition TABS : list (string * pystr) :=
  [("Fall", lit "DATA/F25"); ("Winter", lit "DATA/W26")]%string.

Fixpoint outlines_tabs (tabs : list (string * pystr * OTabWorld))
  (all_results : dict (list (dict pyval)))
  : M (list event) (dict (list (dict pyval))) :=
  match tabs with
  | [] => ret all_results
  | (tab_name, folder, w) :: rest =>
      tab_results <- outlines_tab folder w ;;
      outlines_tabs rest (dict_set all_results tab_name tab_results)
  end.

Definition outlines_crawl (w : string -> OTabWorld)
  : list event * res (dict (list (dict pyval))) :=
  outlines_tabs (map (fun tf => (fst tf, snd tf, w (fst tf))) TABS) [] [].

(** [e.get("pdf_paths")] is truthy. *)
Definition has_pdfs (e : dict pyval) : bool :=
  match dict_get e "pdf_paths" with
  | Some (VList (_ :: _)) | Some (VStr (_ :: _)) => true
  | _ => false
  end.

(** The numbers of the final [print]: [{downloaded}/{total} courses had PDFs
    downloaded]. *)
Definition outlines_summary (all_results : dict (list (dict pyval))) : list nat :=
  let total := fold_right (fun kv n => List.length (snd kv) + n) 0 all_results in
  let downloaded :=
    fold_right (fun kv n => List.length (filter has_pdfs (snd kv)) + n) 0 all_results in
  [downloaded; total].

(** ** Vocabulary of the properties *)

(** [w in s] for strings. *)
Fixpoint contains (s w : pystr) : bool :=
  startswith s w || match s with [] => false | _ :: r => contains r w end.

(** The positional cell-to-field mappings of the two row parsers. *)
Definition osgoode_fields : list (string * nat) :=
  [("instructor", 1); ("section", 2); ("hours", 3); ("catalogue", 4);
   ("number", 5); ("credits", 6); ("initial_demand", 7); ("max", 8);
   ("final", 9); ("writing_requirement", 10); ("praxicum", 11)]%string.

Definition outlines_fields : list (string * nat) :=
  [("course_number", 1); ("section", 2); ("title_variance", 3);
   ("term", 4); ("professor", 5)]%string.

(** The keys of a RowSummary of scrape_osgoode.py. *)
Definition osgoode_row_keys : list string := "title"%string :: "href"%string :: map fst osgoode_fields.

(** The keys the [try] body of [scrape_description_page] may write, and
    with the handler's [error] all the keys of its result. *)
Definition sidebar_keys : list string :=
  ["term"; "sidebar_credits"; "sidebar_hours"; "max_enrollment";
   "prerequisite_courses"; "preferred_courses"; "presentation";
   "upper_year_writing"; "praxicum_detail"]%string.

Definition body_keys : list string :=
  ["description"; "evaluation"; "full_page_text"]%string ++ sidebar_keys.

Definition detail_keys : list string := body_keys ++ ["error"%string].

(** The exception, if any, that the [try] body of [scrape_description_page]
    raised. *)
Definition body_error (page : DetailPage) (href : pystr) : option pystr :=
  match snd (scrape_description_body page (detail_url href) []) with
  | Ok _ => None
  | Exc e => Some e
  end.

Definition entry_href (e : dict pystr) : pystr :=
  match dict_get e "href" with Some h => h | None => [] end.

Definition entry_href_v (e : dict pyval) : pystr :=
  match dict_get e "href" with Some (VStr h) => h | _ => [] end.

(** Every row enriched, in order, as the loops of the two [main]s do when
    no tab re-activation fails. *)
Fixpoint osgoode_enrich (w : nat -> RowWorld) (i : nat) (es : list (dict pystr))
  : list (dict pystr) :=
  match es with
  | [] => []
  | e :: es' =>
      dict_update e (scrape_description_page (rw_page (w i)) (entry_href e))
      :: osgoode_enrich w (S i) es'
  end.

Fixpoint outlines_enrich (w : nat -> ORowWorld) (i : nat) (dest_dir : pystr)
  (es : list (dict pyval)) : list (dict pyval) :=
  match es with
  | [] => []
  | e :: es' =>
      dict_set e "pdf_paths"
        (VList (download_pdf_from_course_page (or_page (w i)) (entry_href_v e) dest_dir e))
      :: outlines_enrich w (S i) dest_dir es'
  end.

(** Returning to the table and re-activating the tab never raise. *)
Definition restores_ok (w : nat -> RowWorld) : Prop :=
  forall i, rw_back (w i) = Ok tt /\ rw_click (w i) = Ok tt.

Definition orestores_ok (w : nat -> ORowWorld) : Prop :=
  forall i, or_back (w i) = Ok tt /\ or_click (w i) = Ok tt.

(** The trace of one tab with [n] rows. *)
Definition tab_trace (n : nat) : list event :=
  ENTER :: List.concat (List.repeat [VISIT; ENTER] n).

Definition event_eqb (a b : event) : bool :=
  match a, b with
  | ENTER, ENTER | VISIT, VISIT => true
  | _, _ => false
  end.

(** How often an event occurs in a trace. *)
Definition count_event (e : event) (tr : list event) : nat :=
  List.length (filter (event_eqb e) tr).

(** The number of records that carry an [error] field. *)
Definition error_count (all_courses : dict (list (dict pystr))) : nat :=
  fold_right
    (fun kv n =>
       List.length (filter (fun e => match dict_get e "error" with
                                     | Some _ => true | None => false end) (snd kv)) + n)
    0 all_courses.

(** A markup blob as a sequence of text pieces and tags. *)
Inductive segment :=
| Text (t : pystr)
| Tag (body : pystr).

Definition render (segs : list segment) : pystr :=
  List.concat (map (fun sg => match sg with
                         | Text t => t
                         | Tag b => "<"%char :: b ++ [">"%char]
                         end) segs).

Definition texts (segs : list segment) : pystr :=
  List.concat (map (fun sg => match sg with Text t => t | Tag _ => [] end) segs).

(** Text pieces hold no [<]; tag bodies are non-empty and hold no [>]. *)
Definition well_formed (segs : list segment) : Prop :=
  Forall (fun sg => match sg with
                    | Text t => existsb (Ascii.eqb "<"%char) t = false
                    | Tag b => b <> [] /\ existsb (Ascii.eqb ">"%char) b = false
                    end) segs.

(** ** Auxiliary predicates of the proofs *)

(** A name that is clean except perhaps for trailing whitespace. *)
Definition pre_clean (s : pystr) : bool :=
  forallb ok_char s && no_adj s && head_ok s.

(** The computation [m] keeps the invariant [P] of its state. *)
Definition preserves {S A} (P : S -> Prop) (m : M S A) : Prop :=
  forall s, P s -> P (fst (m s)).

(** The value of key [k] in a dict is [c]. *)
Definition key_is {V} (k : string) (c : option V) (d : dict V) : Prop := dict_get d k = c.

(** The row has a link. *)
Definition linked (row : Row) : bool :=
  match row_link row with Some _ => true | None => false end.

(** ** Vocabulary of further properties *)

(** The non-whitespace characters of a string, in order. *)
Definition visible (s : pystr) : pystr :=
  filter (fun c => negb (is_space c)) s.

(** A match of [<[^>]+>] starts here: a [<], a character other than [>],
    and a [>] further on. *)
Definition tag_at (s : pystr) : bool :=
  match s with
  | c :: d :: r =>
      Ascii.eqb c "<"%char && negb (Ascii.eqb d ">"%char) && existsb (Ascii.eqb ">"%char) r
  | _ => false
  end.

(** No match of [<[^>]+>] starts anywhere in the string. *)
Fixpoint no_tag (s : pystr) : bool :=
  match s with
  | [] => true
  | c :: r => negb (tag_at (c :: r)) && no_tag r
  end.

(** Neither starts nor ends with whitespace. *)
Definition trimmed (s : pystr) : bool := head_ok s && head_ok (rev s).

(** The fields of [scrape_description_page] filled from a regular
    expression match run through the tag stripping. *)
Definition text_keys : list string :=
  ["description"; "evaluation"; "sidebar_credits"; "sidebar_hours";
   "max_enrollment"; "prerequisite_courses"; "preferred_courses";
   "presentation"; "upper_year_writing"; "praxicum_detail"]%string.

(** The values [term] can take: its default and the group of
    [<b>(Fall|Winter|Year)</b>]. *)
Definition TERM_VALUES : list pystr := [[]; lit "Fall"; lit "Winter"; lit "Year"].

(** The shape of the value of key [k] in a [scrape_description_page]
    result. *)
Definition detail_value_ok (k : string) (v : pystr) : Prop :=
  (In k text_keys -> trimmed v = true /\ no_tag v = true) /\
  (k = "full_page_text"%string -> trimmed v = true) /\
  (k = "term"%string -> In v TERM_VALUES).

Definition detail_values_ok (d : dict pystr) : Prop :=
  forall k v, dict_get d k = Some v -> detail_value_ok k v.

(** A saved path names a file directly inside [dest_dir]: a name with no
    illegal character (so no path separator) of at least three characters
    (so neither [.] nor [..]). *)
Definition saved_path_ok (dest_dir p : pystr) : Prop :=
  exists f, p = dest_dir ++ lit "/" ++ f /\ forallb ok_char f = true /\ 3 <= List.length f.

Definition saved_ok (dest_dir : pystr) (saved : list pystr) : Prop :=
  forall p, In p saved -> saved_path_ok dest_dir p.

(** A loop body that saves at most one path per iteration. *)
Definition adds_at_most_one {A} (m : M (list A) unit) : Prop :=
  forall s, List.length (fst (m s)) <= S (List.length s).

(** The return to the table after a row raises [e]: the navigation back,
    or else the tab re-activation. *)
Definition row_raises (back click : res unit) (e : pystr) : Prop :=
  back = Exc e \/ (back = Ok tt /\ click = Exc e).

(** A tab of scrape_osgoode.py whose first activation raises [e], or whose
    rows before row [j] return to the table and whose row [j] raises [e]
    on the way back. *)
Definition osgoode_tab_raises (w : TabWorld) (e : pystr) : Prop :=
  tw_click w = Exc e \/
  (tw_click w = Ok tt /\
   exists j, j < List.length (scrape_links_from_table (tw_rows w)) /\
     (forall i, i < j -> rw_back (tw_row_world w i) = Ok tt /\ rw_click (tw_row_world w i) = Ok tt) /\
     row_raises (rw_back (tw_row_world w j)) (rw_click (tw_row_world w j)) e).

Definition outlines_tab_raises (w : OTabWorld) (e : pystr) : Prop :=
  ot_click w = Exc e \/
  (ot_click w = Ok tt /\
   exists j, j < List.length (scrape_course_links (ot_rows w)) /\
     (forall i, i < j -> or_back (ot_row_world w i) = Ok tt /\ or_click (ot_row_world w i) = Ok tt) /\
     row_raises (or_back (ot_row_world w j)) (or_click (ot_row_world w j)) e).

(** ** Concrete runs *)

Definition page_ok (html : pystr) : DetailPage := {|
  dp_goto := fun _ => Ok tt;
  dp_wait := Ok tt;
  dp_main_html := Ok (Some html);
  dp_main_text := Ok (Some (strip_tags html));
  dp_sidebar_html := Ok None
|}.

Definition page_timeout : DetailPage := {|
  dp_goto := fun _ => Exc (lit "Timeout 30000ms exceeded.");
  dp_wait := Ok tt;
  dp_main_html := Ok None;
  dp_main_text := Ok None;
  dp_sidebar_html := Ok None
|}.

Definition page_A : DetailPage :=
  page_ok (lit "<strong>Description: </strong>Text A<strong>Evaluation: </strong>Exam").

(** A table row with a course link and [n] cells. *)
Definition data_row (title : pystr) (n : nat) : Row := {|
  row_link := Some (title, lit "syldescription.xsp?documentId=1");
  row_cells := firstn n (title :: List.repeat (lit "x") 11)
|}.

Definition tab_with (rows : list Row) (pages : nat -> DetailPage) : TabWorld := {|
  tw_click := Ok tt;
  tw_rows := rows;
  tw_row_world := fun i => {| rw_page := pages i; rw_back := Ok tt; rw_click := Ok tt |}
|}.

Definition empty_tab : TabWorld := tab_with [] (fun _ => page_A).

(** A tab of two rows whose second detail page is [second]. *)
Definition fall_tab (second : DetailPage) : TabWorld :=
  tab_with [data_row (lit "Course A") 12; data_row (lit "Course B") 12]
           (fun i => if i =? 0 then page_A else second).

(** A crawl whose Fall Courses tab is [fall_tab second], the others empty. *)
Definition scenario (second : DetailPage) : string -> TabWorld :=
  fun t => if String.eqb t "Fall Courses" then fall_tab second else empty_tab.

Definition pdf_page_timeout : PdfPage := {|
  pp_goto := fun _ => Exc (lit "Timeout 30000ms exceeded.");
  pp_wait := Ok tt;
  pp_links := Ok [];
  pp_get := fun _ => Ok true;
  pp_body := fun _ => Ok tt;
  pp_write := fun _ => Ok tt
|}.

Definition outline_row : Row := {|
  row_link := Some (lit "Course A", lit "/outlines2526.nsf/Courses/1");
  row_cells := [lit "Course A"; lit "1"; lit "01"]
|}.

Definition otab_with (rows : list Row) (page : PdfPage) : OTabWorld := {|
  ot_click := Ok tt;
  ot_rows := rows;
  ot_row_world := fun _ => {| or_page := page; or_back := Ok tt; or_click := Ok tt |}
|}.

(** An outline page with two attachments: one named like a PDF file, one
    not. *)
Definition pdf_page_two : PdfPage := {|
  pp_goto := fun _ => Ok tt;
  pp_wait := Ok tt;
  pp_links := Ok [(lit "/outlines2526.nsf/0/1/$File/LAW1001.pdf", lit "LAW 1001 Outline.PDF");
                  (lit "/outlines2526.nsf/0/1/$File/list", lit "Reading list")];
  pp_get := fun _ => Ok true;
  pp_body := fun _ => Ok tt;
  pp_write := fun _ => Ok tt
|}.

(** An outline page that loads and lists no attachment. *)
Definition pdf_page_nolinks : PdfPage := {|
  pp_goto := fun _ => Ok tt;
  pp_wait := Ok tt;
  pp_links := Ok [];
  pp_get := fun _ => Ok true;
  pp_body := fun _ => Ok tt;
  pp_write := fun _ => Ok tt
|}.

(** Two-row tabs whose return to the table after the second row times out. *)
Definition tab_back_fails : TabWorld := {|
  tw_click := Ok tt;
  tw_rows := [data_row (lit "Course A") 12; data_row (lit "Course B") 12];
  tw_row_world := fun i => {| rw_page := page_A;
                              rw_back := if i =? 0 then Ok tt else Exc (lit "Timeout 30000ms exceeded.");
                              rw_click := Ok tt |}
|}.

Definition otab_back_fails : OTabWorld := {|
  ot_click := Ok tt;
  ot_rows := [outline_row; outline_row];
  ot_row_world := fun i => {| or_page := pdf_page_two;
                              or_back := if i =? 0 then Ok tt else Exc (lit "Timeout 30000ms exceeded.");
                              or_click := Ok tt |}
|}.

(** ** Lemmas on the string primitives *)

Lemma head_ok_app (p q : pystr) :
  head_ok (p ++ q) = true -> head_ok p = true.
Proof. destruct p; simpl; auto. Qed.

Lemma no_adj_app (p q : pystr) :
  no_adj (p ++ q) = true -> no_adj p = true /\ no_adj q = true.
Proof.
  induction p as [|c p IH]; simpl; intros H; [auto|].
  apply andb_prop in H as [H1 H2]. destruct (IH H2) as [Hp Hq].
  split; [|exact Hq]. rewrite Hp, andb_true_r.
  destruct (is_space c); simpl in *; [|reflexivity].
  destruct p; simpl in *; auto.
Qed.

Lemma forallb_app_l {A} (f : A -> bool) (p q : list A) :
  forallb f (p ++ q) = true -> forallb f p = true /\ forallb f q = true.
Proof. rewrite forallb_app. apply andb_prop. Qed.

Lemma lstrip_suffix (s : pystr) : exists p, s = p ++ lstrip s.
Proof.
  induction s as [|c s IH]; simpl; [exists []; reflexivity|].
  destruct (is_space c).
  - destruct IH as [p Hp]. exists (c :: p). simpl. congruence.
  - exists []. reflexivity.
Qed.

Lemma lstrip_head_ok (s : pystr) : head_ok (lstrip s) = true.
Proof.
  induction s as [|c s IH]; simpl; [reflexivity|].
  destruct (is_space c) eqn:E; [exact IH|]. simpl. rewrite E. reflexivity.
Qed.

Lemma rstrip_prefix (s : pystr) : exists q, s = rstrip s ++ q.
Proof.
  unfold rstrip. destruct (lstrip_suffix (rev s)) as [p Hp].
  exists (rev p). rewrite <- rev_app_distr, <- Hp, rev_involutive. reflexivity.
Qed.

Lemma rstrip_tail_ok (s : pystr) : head_ok (rev (rstrip s)) = true.
Proof. unfold rstrip. rewrite rev_involutive. apply lstrip_head_ok. Qed.

Lemma lstrip_id (s : pystr) : head_ok s = true -> lstrip s = s.
Proof.
  destruct s as [|c s]; simpl; [reflexivity|].
  intros H. apply negb_true_iff in H. rewrite H. reflexivity.
Qed.

Lemma rstrip_id (s : pystr) : head_ok (rev s) = true -> rstrip s = s.
Proof. intros H. unfold rstrip. rewrite (lstrip_id _ H). apply rev_involutive. Qed.

Lemma firstn_prefix {A} (n : nat) (s : list A) : exists q, s = firstn n s ++ q.
Proof. exists (skipn n s). symmetry. apply firstn_skipn. Qed.

(** The three prefix-closed parts of [clean]. *)

Lemma pre_clean_prefix (p q : pystr) :
  pre_clean (p ++ q) = true -> pre_clean p = true.
Proof.
  unfold pre_clean. intros H.
  apply andb_prop in H as [H H3]. apply andb_prop in H as [H1 H2].
  apply forallb_app_l in H1 as [H1 _]. apply no_adj_app in H2 as [H2 _].
  apply head_ok_app in H3. rewrite H1, H2, H3. reflexivity.
Qed.

Lemma pre_clean_rstrip (s : pystr) :
  pre_clean s = true -> pre_clean (rstrip s) = true /\ clean (rstrip s) = true.
Proof.
  intros H. destruct (rstrip_prefix s) as [q Hq].
  rewrite Hq in H. apply pre_clean_prefix in H. split; [exact H|].
  unfold clean. unfold pre_clean in H. rewrite H. apply rstrip_tail_ok.
Qed.

Lemma is_illegal_underscore : is_illegal "_"%char = false.
Proof. reflexivity. Qed.

Lemma is_illegal_space : is_illegal " "%char = false.
Proof. reflexivity. Qed.

Lemma sub_illegal_legal (s : pystr) :
  forallb (fun c => negb (is_illegal c)) (sub_illegal s) = true.
Proof.
  induction s as [|c s IH]; simpl; [reflexivity|].
  rewrite IH, andb_true_r.
  destruct (is_illegal c) eqn:E; [reflexivity|]. rewrite E. reflexivity.
Qed.

Lemma collapse_ws_shape (b : bool) (s : pystr) :
  forallb (fun c => negb (is_illegal c)) s = true ->
  forallb ok_char (collapse_ws b s) = true /\ no_adj (collapse_ws b s) = true /\
  (b = true -> head_ok (collapse_ws b s) = true).
Proof.
  revert b. induction s as [|c s IH]; intros b H; simpl; [auto|].
  simpl in H. apply andb_prop in H as [Hc Hs].
  destruct (IH true Hs) as [T1 [T2 T3]]. destruct (IH false Hs) as [F1 [F2 _]].
  destruct (is_space c) eqn:Sc.
  - destruct b; [split; [exact T1|split; [exact T2|intros _; exact (T3 eq_refl)]]|].
    simpl. rewrite T1, T2, (T3 eq_refl). simpl.
    repeat split; discriminate.
  - simpl. rewrite F1, F2. unfold ok_char. rewrite Sc, Hc. simpl.
    repeat split; intros _; rewrite Sc; reflexivity.
Qed.

Lemma sanitize_clean (name : pystr) (max_len : Z) :
  (0 <= max_len)%Z ->
  clean (sanitize_filename_at name max_len) = true /\
  (Z.of_nat (List.length (sanitize_filename_at name max_len)) <= max_len)%Z.
Proof.
  intros Hm. unfold sanitize_filename_at.
  set (s2 := collapse_ws false (sub_illegal name)).
  destruct (collapse_ws_shape false (sub_illegal name) (sub_illegal_legal name))
    as [A1 [A2 _]]. fold s2 in A1, A2.
  (* after lstrip: every part of [pre_clean] *)
  assert (P1 : pre_clean (lstrip s2) = true).
  { destruct (lstrip_suffix s2) as [p Hp]. unfold pre_clean.
    rewrite Hp in A1, A2. apply forallb_app_l in A1 as [_ A1].
    apply no_adj_app in A2 as [_ A2]. rewrite A1, A2, lstrip_head_ok. reflexivity. }
  destruct (pre_clean_rstrip _ P1) as [P2 C2]. fold (strip s2) in P2, C2.
  destruct (Z.of_nat (List.length (strip s2)) >? max_len)%Z eqn:Hlen.
  - unfold slice_to. replace (0 <=? max_len)%Z with true by (symmetry; apply Z.leb_le; lia).
    destruct (firstn_prefix (Z.to_nat max_len) (strip s2)) as [q Hq].
    assert (P3 : pre_clean (firstn (Z.to_nat max_len) (strip s2)) = true).
    { rewrite Hq in P2. exact (pre_clean_prefix _ _ P2). }
    destruct (pre_clean_rstrip _ P3) as [_ C3]. split; [exact C3|].
    destruct (rstrip_prefix (firstn (Z.to_nat max_len) (strip s2))) as [q' Hq'].
    assert (L := f_equal (@List.length ascii) Hq'). rewrite length_app in L.
    pose proof (firstn_le_length (Z.to_nat max_len) (strip s2)). lia.
  - split; [exact C2|]. rewrite Z.gtb_ltb in Hlen. apply Z.ltb_ge in Hlen. exact Hlen.
Qed.

Lemma collapse_ws_id (b : bool) (s : pystr) :
  forallb ok_char s = true -> no_adj s = true ->
  (b = true -> head_ok s = true) -> collapse_ws b s = s.
Proof.
  revert b. induction s as [|c s IH]; intros b H1 H2 H3; simpl; [reflexivity|].
  simpl in H1, H2. apply andb_prop in H1 as [Hc H1]. apply andb_prop in H2 as [Ha H2].
  destruct (is_space c) eqn:Sc.
  - destruct b; [specialize (H3 eq_refl); simpl in H3; rewrite Sc in H3; discriminate|].
    unfold ok_char in Hc. rewrite Sc in Hc. simpl in Hc.
    apply andb_prop in Hc as [_ Hc]. apply Ascii.eqb_eq in Hc. subst c.
    simpl in Ha. rewrite (IH true H1 H2 (fun _ => Ha)). reflexivity.
  - rewrite (IH false H1 H2 (fun H => ltac:(discriminate H))). reflexivity.
Qed.

Lemma sub_illegal_id (s : pystr) : forallb ok_char s = true -> sub_illegal s = s.
Proof.
  induction s as [|c s IH]; simpl; intros H; [reflexivity|].
  apply andb_prop in H as [Hc H]. unfold ok_char in Hc.
  apply andb_prop in Hc as [Hc _]. apply negb_true_iff in Hc.
  rewrite Hc, (IH H). reflexivity.
Qed.

Lemma sanitize_id (s : pystr) (max_len : Z) :
  clean s = true -> (Z.of_nat (List.length s) <= max_len)%Z ->
  sanitize_filename_at s max_len = s.
Proof.
  unfold clean. intros H Hl.
  apply andb_prop in H as [H H4]. apply andb_prop in H as [H H3].
  apply andb_prop in H as [H1 H2].
  unfold sanitize_filename_at. rewrite (sub_illegal_id _ H1).
  rewrite (collapse_ws_id false s H1 H2 (fun H => ltac:(discriminate H))).
  unfold strip. rewrite (lstrip_id _ H3), (rstrip_id _ H4).
  replace (Z.of_nat (List.length s) >? max_len)%Z with false by (symmetry; rewrite Z.gtb_ltb; apply Z.ltb_ge; exact Hl).
  reflexivity.
Qed.

(** ** Lemmas on dicts *)

Lemma dict_get_set {V} (d : dict V) (k k' : string) (v : V) :
  dict_get (dict_set d k' v) k = if String.eqb k k' then Some v else dict_get d k.
Proof.
  induction d as [|[k'' v''] d IH]; simpl; [reflexivity|].
  destruct (String.eqb k' k'') eqn:E1.
  - apply String.eqb_eq in E1. subst k''. simpl. destruct (String.eqb k k'); reflexivity.
  - simpl. rewrite IH. destruct (String.eqb k k'') eqn:E2; [|reflexivity].
    apply String.eqb_eq in E2. subst k''.
    destruct (String.eqb k k') eqn:E3; [|reflexivity].
    apply String.eqb_eq in E3. subst k'. rewrite String.eqb_refl in E1. discriminate.
Qed.

Lemma dict_get_notin {V} (d : dict V) (k : string) :
  ~ In k (map fst d) -> dict_get d k = None.
Proof.
  induction d as [|[k' v] d IH]; simpl; intros H; [reflexivity|].
  destruct (String.eqb k k') eqn:E.
  - apply String.eqb_eq in E. subst k'. tauto.
  - apply IH. tauto.
Qed.

Lemma dict_get_in {V} (d : dict V) (k : string) :
  dict_get d k = None -> ~ In k (map fst d).
Proof.
  induction d as [|[k' v] d IH]; simpl; [tauto|].
  destruct (String.eqb k k') eqn:E; [discriminate|].
  intros H [H1|H1]; [subst k'; rewrite String.eqb_refl in E; discriminate|].
  exact (IH H H1).
Qed.

Lemma dict_set_keys {V} (d : dict V) (k : string) (v : V) (k0 : string) :
  In k0 (map fst (dict_set d k v)) -> k0 = k \/ In k0 (map fst d).
Proof.
  induction d as [|[k' v'] d IH]; simpl; [intros [H|[]]; left; symmetry; exact H|].
  destruct (String.eqb k k') eqn:E; simpl; [tauto|].
  intros [H|H]; [tauto|]. destruct (IH H); tauto.
Qed.

Lemma dict_set_nodup {V} (d : dict V) (k : string) (v : V) :
  NoDup (map fst d) -> NoDup (map fst (dict_set d k v)).
Proof.
  induction d as [|[k' v'] d IH]; simpl; intros H.
  - constructor; [simpl; tauto|constructor].
  - inversion H as [|? ? Hn Hd]; subst.
    destruct (String.eqb k k') eqn:E; simpl; constructor; auto.
    intros Hin. apply dict_set_keys in Hin as [Hin|Hin]; [|tauto].
    subst k'. rewrite String.eqb_refl in E. discriminate.
Qed.

Lemma dict_get_update {V} (d1 d2 : dict V) (k : string) :
  NoDup (map fst d2) ->
  dict_get (dict_update d1 d2) k =
  match dict_get d2 k with Some v => Some v | None => dict_get d1 k end.
Proof.
  unfold dict_update. revert d1.
  induction d2 as [|[k' v'] d2 IH]; intros d1 Hn; simpl; [reflexivity|].
  inversion Hn as [|? ? Hk Hd]; subst.
  rewrite (IH _ Hd), dict_get_set. destruct (String.eqb k k') eqn:E; [|reflexivity].
  apply String.eqb_eq in E. subst k'. rewrite (dict_get_notin _ _ Hk). reflexivity.
Qed.

(** ** Invariants of computations on a state *)

Lemma preserves_ret {S A} (P : S -> Prop) (a : A) : preserves P (ret a).
Proof. intros s H. exact H. Qed.

Lemma preserves_lift {S A} (P : S -> Prop) (r : res A) : preserves P (lift r).
Proof. intros s H. exact H. Qed.

Lemma preserves_modify {S} (P : S -> Prop) (f : S -> S) :
  (forall s, P s -> P (f s)) -> preserves P (modify f).
Proof. intros Hf s H. exact (Hf s H). Qed.

Lemma preserves_bind {S A B} (P : S -> Prop) (m : M S A) (f : A -> M S B) :
  preserves P m -> (forall a, preserves P (f a)) -> preserves P (bind m f).
Proof.
  intros Hm Hf s H. unfold bind. specialize (Hm s H).
  destruct (m s) as [s' [a|e]]; simpl in *; [apply Hf|]; exact Hm.
Qed.

(** A bind on a browser call needs the continuation only at the value
    the call returns. *)
Lemma preserves_bind_lift {S A B} (P : S -> Prop) (r : res A) (f : A -> M S B) :
  (forall a, r = Ok a -> preserves P (f a)) -> preserves P (bind (lift r) f).
Proof.
  intros Hf s H. unfold bind, lift. destruct r as [a|e]; simpl; [|exact H].
  exact (Hf a eq_refl s H).
Qed.

Lemma preserves_try_except {S} (P : S -> Prop) (m : M S unit) (h : pystr -> M S unit) :
  preserves P m -> (forall e, preserves P (h e)) -> preserves P (try_except m h).
Proof.
  intros Hm Hh s H. unfold try_except. specialize (Hm s H).
  destruct (m s) as [s' [a|e]]; simpl in *; [|apply Hh]; exact Hm.
Qed.

Ltac preserves_step :=
  match goal with
  | |- preserves _ (bind (lift _) _) => apply preserves_bind_lift; intros ? _
  | |- preserves _ (bind _ _) => apply preserves_bind; [|intros ?]
  | |- preserves _ (set_key _ _) => apply preserves_modify; intros ? ?
  | |- preserves _ (ret _) => apply preserves_ret
  | |- preserves _ (lift _) => apply preserves_lift
  | |- preserves _ (match ?x with _ => _ end) => destruct x
  end.

(** Keys outside [body_keys] are left alone by the extraction. *)

Ltac close_key Hk :=
  match goal with
  | H : key_is ?k ?c ?d |- key_is ?k ?c (dict_set ?d ?k' _) =>
      unfold key_is in *; rewrite dict_get_set;
      replace (String.eqb k k') with false; [exact H|];
      symmetry; apply String.eqb_neq; intros ->; apply Hk; simpl; tauto
  end.

Lemma extract_sidebar_frames k c html :
  ~ In k sidebar_keys -> preserves (key_is k c) (extract_sidebar html).
Proof. intros Hk. unfold extract_sidebar. repeat preserves_step; close_key Hk. Qed.

Lemma extract_main_frames k c html :
  ~ In k body_keys -> preserves (key_is k c) (extract_main html).
Proof. intros Hk. unfold extract_main. repeat preserves_step; close_key Hk. Qed.

Lemma body_frames k c page url :
  ~ In k body_keys -> preserves (key_is k c) (scrape_description_body page url).
Proof.
  intros Hk. unfold scrape_description_body.
  repeat match goal with
    | |- preserves _ (extract_main _) => apply extract_main_frames, Hk
    | |- preserves _ (extract_sidebar _) =>
        apply extract_sidebar_frames; intros Hs; apply Hk, in_or_app; right; exact Hs
    | _ => preserves_step
    end; close_key Hk.
Qed.

Ltac nodup_close :=
  match goal with
  | H : NoDup (map fst ?d) |- NoDup (map fst (dict_set ?d _ _)) => apply dict_set_nodup, H
  end.

Lemma extract_main_nodup html :
  preserves (fun d : dict pystr => NoDup (map fst d)) (extract_main html).
Proof. unfold extract_main. repeat preserves_step; nodup_close. Qed.

Lemma extract_sidebar_nodup html :
  preserves (fun d : dict pystr => NoDup (map fst d)) (extract_sidebar html).
Proof. unfold extract_sidebar. repeat preserves_step; nodup_close. Qed.

Lemma body_nodup page url :
  preserves (fun d : dict pystr => NoDup (map fst d)) (scrape_description_body page url).
Proof.
  unfold scrape_description_body.
  repeat match goal with
    | |- preserves _ (extract_main _) => apply extract_main_nodup
    | |- preserves _ (extract_sidebar _) => apply extract_sidebar_nodup
    | _ => preserves_step
    end; nodup_close.
Qed.

Lemma scrape_description_page_nodup page href :
  NoDup (map fst (scrape_description_page page href)).
Proof.
  unfold scrape_description_page.
  apply preserves_try_except; [apply body_nodup| |constructor].
  intros e. apply preserves_modify. intros d Hd. nodup_close.
Qed.

Lemma scrape_description_page_outside page href k :
  ~ In k detail_keys -> dict_get (scrape_description_page page href) k = None.
Proof.
  intros Hk. unfold scrape_description_page.
  assert (Hb : ~ In k body_keys) by (intros H; apply Hk, in_or_app; left; exact H).
  apply (preserves_try_except (key_is k None)); [apply body_frames, Hb| |reflexivity].
  intros e. apply preserves_modify. intros d Hd. unfold key_is in *.
  rewrite dict_get_set. replace (String.eqb k "error") with false; [exact Hd|].
  symmetry. apply String.eqb_neq. intros ->. apply Hk, in_or_app. right. left. reflexivity.
Qed.

Lemma error_not_body_key : ~ In "error"%string body_keys.
Proof. simpl. intuition discriminate. Qed.

Lemma scrape_description_page_error page href :
  dict_get (scrape_description_page page href) "error" = body_error page href.
Proof.
  unfold scrape_description_page, body_error, try_except.
  pose proof (body_frames "error" None page (detail_url href) error_not_body_key [] eq_refl) as H.
  unfold key_is in H.
  destruct (scrape_description_body page (detail_url href) []) as [d [u|e]]; simpl in *.
  - exact H.
  - rewrite dict_get_set. reflexivity.
Qed.

(** ** Lemmas on the regular expressions *)

Lemma search_from_some {A} (m : pystr -> option A) (s : pystr) (g : A) :
  search_from m s = Some g -> exists p t, s = p ++ t /\ m t = Some g.
Proof.
  induction s as [|c s IH]; simpl; destruct (m _) eqn:E; intros H.
  - exists [], []. inversion H; subst. auto.
  - discriminate.
  - exists [], (c :: s). inversion H; subst. auto.
  - destruct (IH H) as [p [t [-> Ht]]]. exists (c :: p), t. auto.
Qed.

Lemma startswith_app (s p q : pystr) :
  startswith s (p ++ q) = true ->
  startswith s p = true /\ startswith (skipn (List.length p) s) q = true.
Proof.
  revert s. induction p as [|c p IH]; intros s H; simpl in *; [split; auto|].
  destruct s as [|d s]; [simpl in H; discriminate|]. simpl in H |- *.
  apply andb_prop in H as [H1 H2]. rewrite H1. apply IH in H2 as [H2 H3]. split; auto.
Qed.

Lemma contains_app (p t w : pystr) :
  startswith t w = true -> contains (p ++ t) w = true.
Proof.
  induction p as [|c p IH]; intros H; simpl.
  - destruct t; simpl; rewrite H; reflexivity.
  - rewrite (IH H). apply orb_true_r.
Qed.

(** A rule whose label starts with [pre ++ word] only matches where [word]
    occurs. *)
Lemma span_search_contains (pre word : pystr) term html g :
  search_from (span_at (pre ++ word) term) html = Some g -> contains html word = true.
Proof.
  intros H. apply search_from_some in H as [p [t [-> Ht]]].
  unfold span_at in Ht. destruct (startswith t (pre ++ word)) eqn:E; [|discriminate].
  apply startswith_app in E as [_ E].
  rewrite <- (firstn_skipn (List.length pre) t), app_assoc.
  apply contains_app, E.
Qed.

Lemma desc_label_split : desc_label = lit "<strong>" ++ lit "Description:".
Proof. reflexivity. Qed.

Lemma eval_label_split : eval_label = lit "<strong>" ++ lit "Evaluation:".
Proof. reflexivity. Qed.

Lemma desc_search_none term html :
  contains html (lit "Description:") = false ->
  search_from (span_at desc_label term) html = None.
Proof.
  intros H. destruct (search_from _ html) eqn:E; [|reflexivity].
  rewrite desc_label_split in E. apply span_search_contains in E. congruence.
Qed.

Lemma eval_search_none term html :
  contains html (lit "Evaluation:") = false ->
  search_from (span_at eval_label term) html = None.
Proof.
  intros H. destruct (search_from _ html) eqn:E; [|reflexivity].
  rewrite eval_label_split in E. apply span_search_contains in E. congruence.
Qed.

Lemma extract_main_no_raise html d : snd (extract_main html d) = Ok tt.
Proof.
  unfold extract_main, bind, set_key, modify, ret.
  repeat (destruct (search_from _ _)); reflexivity.
Qed.

Lemma extract_sidebar_no_raise html d : snd (extract_sidebar html d) = Ok tt.
Proof.
  unfold extract_sidebar, bind, set_key, modify, ret.
  destruct (search_from term_at html); reflexivity.
Qed.

Lemma extract_main_keeps k c html :
  (k = "description"%string -> contains html (lit "Description:") = false) ->
  (k = "evaluation"%string -> contains html (lit "Evaluation:") = false) ->
  preserves (key_is k c) (extract_main html).
Proof.
  intros Hd He. unfold extract_main.
  apply preserves_bind; [|intros _].
  - destruct (search_from (span_at desc_label desc_term) html) eqn:E1;
      [|destruct (search_from (span_at desc_label desc_fallback_term) html) eqn:E2].
    1, 2: (apply preserves_modify; intros d Hk; unfold key_is in *;
           rewrite dict_get_set; destruct (String.eqb k "description") eqn:Ek;
           [apply String.eqb_eq in Ek; rewrite desc_search_none in * by auto;
            discriminate|exact Hk]).
    apply preserves_ret.
  - destruct (search_from (span_at eval_label eval_term) html) eqn:E3; [|apply preserves_ret].
    apply preserves_modify; intros d Hk; unfold key_is in *.
    rewrite dict_get_set. destruct (String.eqb k "evaluation") eqn:Ek; [|exact Hk].
    apply String.eqb_eq in Ek. rewrite eval_search_none in E3 by auto. discriminate.
Qed.

Lemma body_keeps_span_keys k c page url :
  In k ["description"; "evaluation"]%string ->
  (k = "description"%string -> forall html, dp_main_html page = Ok (Some html) ->
     contains html (lit "Description:") = false) ->
  (k = "evaluation"%string -> forall html, dp_main_html page = Ok (Some html) ->
     contains html (lit "Evaluation:") = false) ->
  preserves (key_is k c) (scrape_description_body page url).
Proof.
  intros Hin Hd He. unfold scrape_description_body.
  apply preserves_bind_lift; intros _ _. apply preserves_bind_lift; intros _ _.
  apply preserves_bind_lift; intros mh Hmh.
  apply preserves_bind; [|intros _].
  - destruct mh as [[|ch r]|]; [apply preserves_ret| |apply preserves_ret].
    apply preserves_bind; [|intros _].
    + apply extract_main_keeps; intros ->; [apply Hd|apply He]; auto.
    + apply preserves_bind_lift; intros mt _. apply preserves_modify; intros d Hk.
      unfold key_is in *. rewrite dict_get_set.
      replace (String.eqb k "full_page_text") with false; [exact Hk|].
      symmetry. apply String.eqb_neq. simpl in Hin. intuition (subst; discriminate).
  - apply preserves_bind_lift; intros sh _.
    destruct sh as [[|ch r]|]; [apply preserves_ret| |apply preserves_ret].
    apply extract_sidebar_frames. simpl in Hin |- *. intuition (subst; discriminate).
Qed.

(** ** Lemmas on tag stripping *)

Lemma strip_tags_text (t rest : pystr) :
  existsb (Ascii.eqb "<"%char) t = false ->
  strip_tags_in None (t ++ rest) = t ++ strip_tags_in None rest.
Proof.
  induction t as [|c t IH]; intros H; [reflexivity|].
  cbn [existsb] in H. apply orb_false_iff in H as [H1 H2].
  rewrite Ascii.eqb_sym in H1. cbn [app strip_tags_in]. rewrite H1, (IH H2). reflexivity.
Qed.

Lemma strip_tags_tag (body buf rest : pystr) :
  existsb (Ascii.eqb ">"%char) body = false -> buf ++ body <> [] ->
  strip_tags_in (Some buf) (body ++ ">"%char :: rest) = strip_tags_in None rest.
Proof.
  revert buf. induction body as [|c body IH]; intros buf H Hne.
  - rewrite app_nil_r in Hne. destruct buf; [congruence|reflexivity].
  - cbn [existsb] in H. apply orb_false_iff in H as [H1 H2].
    rewrite Ascii.eqb_sym in H1. cbn [app strip_tags_in]. rewrite H1.
    destruct buf as [|b buf].
    + apply IH; [exact H2|discriminate].
    + apply IH; [exact H2|]. simpl. discriminate.
Qed.

Lemma strip_tags_no_gt (buf s : pystr) :
  existsb (Ascii.eqb ">"%char) s = false ->
  strip_tags_in (Some buf) s = "<"%char :: buf ++ s.
Proof.
  revert buf. induction s as [|c s IH]; intros buf H; simpl; [rewrite app_nil_r; reflexivity|].
  cbn [existsb] in H. apply orb_false_iff in H as [Hc H]. rewrite Ascii.eqb_sym in Hc.
  destruct buf as [|b buf]; rewrite Hc, IH by exact H; [reflexivity|].
  simpl. rewrite <- app_assoc. reflexivity.
Qed.

Lemma strip_tags_render (segs : list segment) :
  well_formed segs -> strip_tags (render segs) = texts segs.
Proof.
  unfold strip_tags, render, texts. induction 1 as [|sg segs Hsg Hs IH]; [reflexivity|].
  simpl. destruct sg as [t|b].
  - rewrite strip_tags_text by exact Hsg. rewrite IH. reflexivity.
  - destruct Hsg as [Hne Hb]. simpl.
    rewrite <- app_assoc. simpl. rewrite strip_tags_tag; auto.
Qed.

(** ** Lemmas on the row parsers *)


Lemma scrape_links_from_table_length rows :
  List.length (scrape_links_from_table rows) =
  List.length (filter (fun row => linked row && (12 <=? List.length (row_cells row))) rows).
Proof.
  induction rows as [|row rows IH]; [reflexivity|].
  cbn [scrape_links_from_table filter].
  destruct (row_link row) as [[t h]|] eqn:El.
  - replace (linked row) with true by (unfold linked; rewrite El; reflexivity).
    rewrite andb_true_l.
    destruct (List.length (row_cells row) <? 12) eqn:E.
    + apply Nat.ltb_lt in E.
      replace (12 <=? List.length (row_cells row)) with false by (symmetry; apply Nat.leb_gt; lia).
      exact IH.
    + apply Nat.ltb_ge in E.
      replace (12 <=? List.length (row_cells row)) with true by (symmetry; apply Nat.leb_le; lia).
      cbn [List.length]. rewrite IH. reflexivity.
  - replace (linked row) with false by (unfold linked; rewrite El; reflexivity). exact IH.
Qed.

Lemma scrape_course_links_length rows :
  List.length (scrape_course_links rows) = List.length (filter linked rows).
Proof.
  induction rows as [|row rows IH]; [reflexivity|].
  cbn [scrape_course_links filter].
  destruct (row_link row) as [[t h]|] eqn:El.
  - replace (linked row) with true by (unfold linked; rewrite El; reflexivity).
    cbn [List.length]. rewrite IH. reflexivity.
  - replace (linked row) with false by (unfold linked; rewrite El; reflexivity). exact IH.
Qed.

Lemma scrape_links_from_table_in rows e :
  In e (scrape_links_from_table rows) ->
  exists row t h, In row rows /\ row_link row = Some (t, h) /\
    e = osgoode_entry (strip t) h (map strip (row_cells row)).
Proof.
  induction rows as [|row rows IH]; simpl; [tauto|].
  destruct (row_link row) as [[t h]|] eqn:El.
  - destruct (_ <? 12).
    + intros H. destruct (IH H) as [r [t' [h' [H1 H2]]]]. exists r, t', h'. tauto.
    + intros [<-|H]; [exists row, t, h; auto|].
      destruct (IH H) as [r [t' [h' [H1 H2]]]]. exists r, t', h'. tauto.
  - intros H. destruct (IH H) as [r [t' [h' [H1 H2]]]]. exists r, t', h'. tauto.
Qed.

Lemma scrape_course_links_in rows e :
  In e (scrape_course_links rows) ->
  exists row t h, In row rows /\ row_link row = Some (t, h) /\
    e = outlines_entry (strip t) h (map strip (row_cells row)).
Proof.
  induction rows as [|row rows IH]; simpl; [tauto|].
  destruct (row_link row) as [[t h]|] eqn:El.
  - intros [<-|H]; [exists row, t, h; auto|].
    destruct (IH H) as [r [t' [h' [H1 H2]]]]. exists r, t', h'. tauto.
  - intros H. destruct (IH H) as [r [t' [h' [H1 H2]]]]. exists r, t', h'. tauto.
Qed.

Lemma cell_at_map_strip (cells : list pystr) (i : nat) :
  cell_at (map strip cells) i =
  if i <? List.length cells then strip (nth i cells []) else [].
Proof.
  unfold cell_at. rewrite length_map. destruct (i <? List.length cells) eqn:E; [|reflexivity].
  apply Nat.ltb_lt in E.
  rewrite (nth_indep _ [] (strip [])) by (rewrite length_map; exact E). apply map_nth.
Qed.

Lemma osgoode_entry_field t h ct k i :
  In (k, i) osgoode_fields -> dict_get (osgoode_entry t h ct) k = Some (cell_at ct i).
Proof. simpl. intros H. repeat destruct H as [H|H]; try (injection H as <- <-); first [reflexivity|contradiction]. Qed.

Lemma outlines_entry_field t h ct k i :
  In (k, i) outlines_fields -> dict_get (outlines_entry t h ct) k = Some (VStr (cell_at ct i)).
Proof. simpl. intros H. repeat destruct H as [H|H]; try (injection H as <- <-); first [reflexivity|contradiction]. Qed.

(** ** Lemmas on the crawl loops *)

Lemma osgoode_visit_rows_ok w i es tr :
  restores_ok w ->
  Forall (fun e => (exists v, dict_get e "title" = Some v) /\
                   (exists v, dict_get e "section" = Some v) /\
                   dict_get e "href" = Some (entry_href e)) es ->
  osgoode_visit_rows w i es tr =
  (tr ++ List.concat (List.repeat [VISIT; ENTER] (List.length es)),
   Ok (osgoode_enrich w i es)).
Proof.
  intros Hr Hes. revert i tr.
  induction Hes as [|e es [[t Ht] [[s Hs] Hh]] Hes IH]; intros i tr.
  - simpl. rewrite app_nil_r. reflexivity.
  - destruct (Hr i) as [Hb Hc].
    cbn [osgoode_visit_rows]. unfold bind, lift, emit, modify, ret, dict_getitem.
    rewrite Ht, Hs, Hh, Hb, Hc, IH. cbn [osgoode_enrich List.length List.repeat List.concat].
    rewrite <- !app_assoc. reflexivity.
Qed.

Lemma scrape_links_from_table_keys rows :
  Forall (fun e => (exists v, dict_get e "title" = Some v) /\
                   (exists v, dict_get e "section" = Some v) /\
                   dict_get e "href" = Some (entry_href e))
         (scrape_links_from_table rows).
Proof.
  apply Forall_forall. intros e He.
  destruct (scrape_links_from_table_in _ _ He) as [row [t [h [_ [_ ->]]]]].
  split; [eexists; reflexivity|split; [eexists; reflexivity|reflexivity]].
Qed.

Lemma osgoode_tab_ok w tr :
  tw_click w = Ok tt -> restores_ok (tw_row_world w) ->
  osgoode_tab w tr =
  (tr ++ tab_trace (List.length (scrape_links_from_table (tw_rows w))),
   Ok (osgoode_enrich (tw_row_world w) 0 (scrape_links_from_table (tw_rows w)))).
Proof.
  intros Hc Hr. unfold osgoode_tab, bind, lift, emit, modify. rewrite Hc.
  rewrite osgoode_visit_rows_ok by (exact Hr || apply scrape_links_from_table_keys).
  unfold tab_trace. rewrite <- app_assoc. reflexivity.
Qed.

Lemma length_osgoode_enrich w i es : List.length (osgoode_enrich w i es) = List.length es.
Proof. revert i. induction es; intros i; simpl; [|rewrite IHes]; reflexivity. Qed.

Lemma nth_error_osgoode_enrich w j es i :
  nth_error (osgoode_enrich w j es) i =
  option_map (fun e => dict_update e (scrape_description_page (rw_page (w (j + i))) (entry_href e)))
             (nth_error es i).
Proof.
  revert j i. induction es as [|e es IH]; intros j i; [destruct i; reflexivity|].
  destruct i as [|i]; simpl; [rewrite Nat.add_0_r; reflexivity|].
  rewrite IH. rewrite Nat.add_succ_r. reflexivity.
Qed.

Lemma outlines_visit_rows_ok w i dest_dir es tr :
  orestores_ok w ->
  Forall (fun e => (exists v, dict_get e "title" = Some v) /\
                   (exists v, dict_get e "course_number" = Some v) /\
                   (exists v, dict_get e "section" = Some v) /\
                   (exists v, dict_get e "professor" = Some v) /\
                   dict_get e "href" = Some (VStr (entry_href_v e))) es ->
  outlines_visit_rows w i dest_dir es tr =
  (tr ++ List.concat (List.repeat [VISIT; ENTER] (List.length es)),
   Ok (outlines_enrich w i dest_dir es)).
Proof.
  intros Hr Hes. revert i tr.
  induction Hes as [|e es [[t Ht] [[n Hn] [[s Hs] [[p Hp] Hh]]]] Hes IH]; intros i tr.
  - simpl. rewrite app_nil_r. reflexivity.
  - destruct (Hr i) as [Hb Hc].
    cbn [outlines_visit_rows]. unfold bind, lift, emit, modify, ret, dict_getitem.
    rewrite Ht, Hn, Hs, Hp, Hh. cbn [py_str].
    rewrite Hb, Hc, IH. cbn [outlines_enrich List.length List.repeat List.concat].
    rewrite <- !app_assoc.
    destruct (download_pdf_from_course_page _ _ _ _); reflexivity.
Qed.

Lemma scrape_course_links_keys rows :
  Forall (fun e => (exists v, dict_get e "title" = Some v) /\
                   (exists v, dict_get e "course_number" = Some v) /\
                   (exists v, dict_get e "section" = Some v) /\
                   (exists v, dict_get e "professor" = Some v) /\
                   dict_get e "href" = Some (VStr (entry_href_v e)))
         (scrape_course_links rows).
Proof.
  apply Forall_forall. intros e He.
  destruct (scrape_course_links_in _ _ He) as [row [t [h [_ [_ ->]]]]].
  repeat split; try (eexists; reflexivity).
Qed.

Lemma outlines_tab_ok dest_dir w tr :
  ot_click w = Ok tt -> orestores_ok (ot_row_world w) ->
  outlines_tab dest_dir w tr =
  (tr ++ tab_trace (List.length (scrape_course_links (ot_rows w))),
   Ok (outlines_enrich (ot_row_world w) 0 dest_dir (scrape_course_links (ot_rows w)))).
Proof.
  intros Hc Hr. unfold outlines_tab, bind, lift, emit, modify. rewrite Hc.
  rewrite outlines_visit_rows_ok by (exact Hr || apply scrape_course_links_keys).
  unfold tab_trace. rewrite <- app_assoc. reflexivity.
Qed.

Lemma length_outlines_enrich w i d es : List.length (outlines_enrich w i d es) = List.length es.
Proof. revert i. induction es; intros i; simpl; [|rewrite IHes]; reflexivity. Qed.

Lemma outlines_enrich_in w i d es r :
  In r (outlines_enrich w i d es) ->
  exists e v, In e es /\ r = dict_set e "pdf_paths" v.
Proof.
  revert i. induction es as [|e es IH]; simpl; intros i; [tauto|].
  intros [<-|H]; [exists e; eexists; auto|].
  destruct (IH _ H) as [e' [v [H1 H2]]]. exists e', v. auto.
Qed.

Lemma outlines_enrich_in_list w i d es r :
  In r (outlines_enrich w i d es) ->
  exists e paths, In e es /\ r = dict_set e "pdf_paths" (VList paths).
Proof.
  revert i. induction es as [|e es IH]; simpl; intros i; [tauto|].
  intros [<-|H]; [exists e; eexists; auto|].
  destruct (IH _ H) as [e' [v [H1 H2]]]. exists e', v. auto.
Qed.

Lemma has_pdfs_le w i d es :
  List.length (filter has_pdfs (outlines_enrich w i d es)) <= List.length es.
Proof. rewrite <- (length_outlines_enrich w i d es). apply filter_length_le. Qed.

(** * The claims *)

(** C1.  Every [Exception] raised while a detail page is
    fetched is caught inside the Detail Fetcher and the per-row loop goes
    on: when the tab activations succeed, an osgoode tab yields one record
    per parsed row, whose [error] field is present exactly when that row's
    fetch raised (and then holds [str(e)]); an outlines tab also yields one
    record per row, but no record ever carries an [error] field, since
    [download_pdf_from_course_page] only returns the files saved so far. *)
Theorem C1_detail_failure_isolated (w : TabWorld) (ow : OTabWorld) (dest_dir : pystr)
  (tr : list event) :
  tw_click w = Ok tt -> restores_ok (tw_row_world w) ->
  ot_click ow = Ok tt -> orestores_ok (ot_row_world ow) ->
  (exists recs, snd (osgoode_tab w tr) = Ok recs /\
     List.length recs = List.length (scrape_links_from_table (tw_rows w)) /\
     forall i e, nth_error (scrape_links_from_table (tw_rows w)) i = Some e ->
       exists r, nth_error recs i = Some r /\
         dict_get r "error" = body_error (rw_page (tw_row_world w i)) (entry_href e)) /\
  (exists recs, snd (outlines_tab dest_dir ow tr) = Ok recs /\
     List.length recs = List.length (scrape_course_links (ot_rows ow)) /\
     forall r, In r recs -> dict_get r "error" = None).
Proof.
  intros Hc Hr Hoc Hor. split.
  - rewrite osgoode_tab_ok by assumption. eexists. split; [reflexivity|].
    split; [apply length_osgoode_enrich|].
    intros i e He. rewrite nth_error_osgoode_enrich, He. simpl.
    eexists; split; [reflexivity|].
    rewrite dict_get_update by apply scrape_description_page_nodup.
    rewrite scrape_description_page_error. destruct (body_error _ _); [reflexivity|].
    apply nth_error_In in He.
    destruct (scrape_links_from_table_in _ _ He) as [row [t [h [_ [_ ->]]]]]. reflexivity.
  - rewrite outlines_tab_ok by assumption. eexists. split; [reflexivity|].
    split; [apply length_outlines_enrich|].
    intros r Hin. destruct (outlines_enrich_in _ _ _ _ _ Hin) as [e [v [He ->]]].
    rewrite dict_get_set. simpl.
    destruct (scrape_course_links_in _ _ He) as [row [t [h [_ [_ ->]]]]]. reflexivity.
Qed.

Lemma C1_witness :
  (exists recs, snd (osgoode_tab (fall_tab page_timeout) []) = Ok recs /\
     List.length recs = List.length (scrape_links_from_table (tw_rows (fall_tab page_timeout))) /\
     forall i e, nth_error (scrape_links_from_table (tw_rows (fall_tab page_timeout))) i = Some e ->
       exists r, nth_error recs i = Some r /\
         dict_get r "error" = body_error (rw_page (tw_row_world (fall_tab page_timeout) i)) (entry_href e)) /\
  (exists recs, snd (outlines_tab (lit "DATA/F25") (otab_with [outline_row] pdf_page_timeout) []) = Ok recs /\
     List.length recs = List.length (scrape_course_links (ot_rows (otab_with [outline_row] pdf_page_timeout))) /\
     forall r, In r recs -> dict_get r "error" = None).
Proof.
  apply (C1_detail_failure_isolated (fall_tab page_timeout) (otab_with [outline_row] pdf_page_timeout)
           (lit "DATA/F25") []);
    [reflexivity|intros i; split; reflexivity|reflexivity|intros i; split; reflexivity].
Defined.

(** C1: an outline page whose navigation times out gives a record with no
    [error] field, the same record as a page without attachment. *)
Lemma C1_counterexample :
  match snd (outlines_tab (lit "DATA/F25") (otab_with [outline_row] pdf_page_timeout) []) with
  | Ok [r] => dict_get r "error" = None /\ dict_get r "pdf_paths" = Some (VList [])
  | _ => False
  end.
Proof. vm_compute. split; reflexivity. Qed.

(** C2.  When the label [Description:] does not occur in the
    main content of a detail page, the record returned by
    [scrape_description_page] has no [description] field at all, not an
    empty string; the same holds for [Evaluation:] and [evaluation], each
    label on its own.  The bold-value sidebar rules give the empty string
    when their pattern finds no match, and the term rule leaves [term] at
    the empty string it first sets.  Running the extraction rules on a
    blob never raises. *)
Theorem C2_absent_label_leaves_field_out (page : DetailPage) (href : pystr) :
  ((forall html, dp_main_html page = Ok (Some html) ->
      contains html (lit "Description:") = false) ->
   dict_get (scrape_description_page page href) "description" = None) /\
  ((forall html, dp_main_html page = Ok (Some html) ->
      contains html (lit "Evaluation:") = false) ->
   dict_get (scrape_description_page page href) "evaluation" = None) /\
  (forall html label, search_from (bold_at label) html = None -> extract_bold html label = []) /\
  (forall html d, search_from term_at html = None ->
     dict_get (fst (extract_sidebar html d)) "term" = Some []) /\
  (forall html d, snd (extract_main html d) = Ok tt /\ snd (extract_sidebar html d) = Ok tt).
Proof.
  assert (Herr : forall k, String.eqb k "error" = false ->
            forall e, preserves (key_is k (@None pystr)) (set_key "error" e)).
  { intros k Hk e. apply preserves_modify. intros d Hkd. unfold key_is in *.
    rewrite dict_get_set, Hk. exact Hkd. }
  split; [|split; [|split; [|split]]].
  - intros Hd. unfold scrape_description_page.
    apply (preserves_try_except (key_is "description" (@None pystr))); [| |reflexivity].
    + apply body_keeps_span_keys; [simpl; auto|intros _; exact Hd|discriminate].
    + apply Herr. reflexivity.
  - intros He. unfold scrape_description_page.
    apply (preserves_try_except (key_is "evaluation" (@None pystr))); [| |reflexivity].
    + apply body_keeps_span_keys; [simpl; auto|discriminate|intros _; exact He].
    + apply Herr. reflexivity.
  - intros html label H. unfold extract_bold. rewrite H. reflexivity.
  - intros html d H. unfold extract_sidebar, bind, set_key, modify, ret. rewrite H.
    cbn [fst]. rewrite !dict_get_set. reflexivity.
  - intros html d. split; [apply extract_main_no_raise|apply extract_sidebar_no_raise].
Qed.

(** A page whose main content has an [Evaluation:] label but no
    [Description:] label: no [description] field. *)
Lemma C2_witness :
  dict_get (scrape_description_page
              (page_ok (lit "<p><strong>Evaluation: </strong>Exam 100%</p>")) (lit "syl"))
           "description" = None.
Proof.
  apply (C2_absent_label_leaves_field_out
           (page_ok (lit "<p><strong>Evaluation: </strong>Exam 100%</p>")) (lit "syl")).
  intros html H. simpl in H. injection H as <-. reflexivity.
Defined.

(** C2: with no [Description:] label the field is missing, not [""]. *)
Lemma C2_counterexample :
  dict_get (scrape_description_page (page_ok (lit "<p>Introduction to law.</p>")) (lit "syl"))
    "description" <> Some [].
Proof. vm_compute. discriminate. Qed.

(** C3.  When every tab activation succeeds, the final summary
    of scrape_osgoode.py reports only the number of records (the rows
    parsed over all tabs), whatever the detail pages did; that of
    scrape_outlines.py reports [d/total] with [total] the number of records
    (the rows parsed over both tabs) and [d <= total] the number of records
    whose [pdf_paths] is non-empty.  Neither reports a count of failed
    rows. *)
Theorem C3_summary_reports_totals_only (w : string -> TabWorld) (ow : string -> OTabWorld) :
  (forall t, tw_click (w t) = Ok tt /\ restores_ok (tw_row_world (w t))) ->
  (forall t, ot_click (ow t) = Ok tt /\ orestores_ok (ot_row_world (ow t))) ->
  (exists all, snd (osgoode_crawl w) = Ok all /\
     osgoode_summary all =
       [fold_right (fun t n => List.length (scrape_links_from_table (tw_rows (w t))) + n)
                   0 TAB_BUTTONS]) /\
  (exists all, snd (outlines_crawl ow) = Ok all /\
     outlines_summary all =
       [List.length (filter has_pdfs (List.concat (map snd all)));
        fold_right (fun tf n => List.length (scrape_course_links (ot_rows (ow (fst tf)))) + n)
                   0 TABS] /\
     List.length (List.concat (map snd all)) =
       fold_right (fun tf n => List.length (scrape_course_links (ot_rows (ow (fst tf)))) + n)
                  0 TABS /\
     (forall r, In r (List.concat (map snd all)) ->
        has_pdfs r = true <->
        exists p ps, dict_get r "pdf_paths" = Some (VList (p :: ps)))).
Proof.
  intros Hw How. split.
  - unfold osgoode_crawl. cbn [map TAB_BUTTONS osgoode_tabs]. unfold bind.
    repeat (rewrite osgoode_tab_ok by (apply Hw); cbn beta iota).
    eexists. split; [reflexivity|]. unfold osgoode_summary, osgoode_total. simpl.
    rewrite !length_osgoode_enrich. reflexivity.
  - unfold outlines_crawl. cbn [map TABS outlines_tabs fst snd]. unfold bind.
    repeat (rewrite outlines_tab_ok by (apply How); cbn beta iota).
    eexists. split; [reflexivity|]. unfold outlines_summary. simpl.
    rewrite !app_nil_r, !filter_app, !length_app, !length_outlines_enrich.
    rewrite !Nat.add_0_r. split; [reflexivity|]. split; [reflexivity|].
    intros r Hr. apply in_app_or in Hr as [Hr|Hr];
      destruct (outlines_enrich_in_list _ _ _ _ _ Hr) as [e [v [He ->]]];
      unfold has_pdfs; rewrite dict_get_set, String.eqb_refl;
      (destruct v as [|p ps]; split; [discriminate|intros [? [? H]]; discriminate
                                     |intros _; eauto|reflexivity]).
Qed.

Lemma C3_witness :
  (exists all, snd (osgoode_crawl (scenario page_timeout)) = Ok all /\
     osgoode_summary all =
       [fold_right (fun t n => List.length (scrape_links_from_table (tw_rows (scenario page_timeout t)))
                               + n) 0 TAB_BUTTONS]) /\
  (exists all, snd (outlines_crawl (fun _ => otab_with [outline_row] pdf_page_two)) = Ok all /\
     outlines_summary all =
       [List.length (filter has_pdfs (List.concat (map snd all)));
        fold_right (fun tf n => List.length (scrape_course_links
              (ot_rows ((fun _ => otab_with [outline_row] pdf_page_two) (fst tf)))) + n) 0 TABS] /\
     List.length (List.concat (map snd all)) =
       fold_right (fun tf n => List.length (scrape_course_links
              (ot_rows ((fun _ => otab_with [outline_row] pdf_page_two) (fst tf)))) + n) 0 TABS /\
     (forall r, In r (List.concat (map snd all)) ->
        has_pdfs r = true <->
        exists p ps, dict_get r "pdf_paths" = Some (VList (p :: ps)))).
Proof.
  apply (C3_summary_reports_totals_only (scenario page_timeout)
           (fun _ => otab_with [outline_row] pdf_page_two));
    intros t; [unfold scenario; destruct (String.eqb t "Fall Courses")|];
    split; try reflexivity; intros i; split; reflexivity.
Defined.

(** C3: the two-row crawl whose second detail page times out and the one
    where it succeeds print the same summary; only the records tell the
    failure apart.  In scrape_outlines.py, a crawl whose outline pages time
    out prints the same summary as one whose pages list no attachment. *)
Lemma C3_counterexample :
  match snd (osgoode_crawl (scenario page_timeout)), snd (osgoode_crawl (scenario page_A)),
        snd (outlines_crawl (fun _ => otab_with [outline_row] pdf_page_timeout)),
        snd (outlines_crawl (fun _ => otab_with [outline_row] pdf_page_nolinks)) with
  | Ok a1, Ok a2, Ok b1, Ok b2 =>
      error_count a1 = 1 /\ error_count a2 = 0 /\
      osgoode_summary a1 = [2] /\ osgoode_summary a2 = [2] /\
      outlines_summary b1 = [0; 2] /\ outlines_summary b2 = [0; 2]
  | _, _, _, _ => False
  end.
Proof. vm_compute. repeat split. Qed.

(** C4.  The course parser of scrape_osgoode.py keeps exactly
    the rows that have a course link and at least 12 cells; the outline
    parser of scrape_outlines.py has no cell-count threshold and keeps
    every row with an outline link.  Both are total: no row raises. *)
Theorem C4_row_parsers_keep (rows : list Row) :
  List.length (scrape_links_from_table rows) =
    List.length (filter (fun row => linked row && (12 <=? List.length (row_cells row))) rows) /\
  List.length (scrape_course_links rows) = List.length (filter linked rows).
Proof. split; [apply scrape_links_from_table_length|apply scrape_course_links_length]. Qed.

(** C4: a linked row of 3 cells is not skipped by the outline parser. *)
Lemma C4_counterexample :
  List.length (row_cells outline_row) < 12 /\
  List.length (scrape_course_links [outline_row]) = 1.
Proof. split; [simpl; lia|reflexivity]. Qed.

(** C5.  [re.sub(r'<[^>]+>', '', s)] scans left to right: text up
    to the first [<] is kept; a [<] followed by one or more characters
    other than [>] and then a [>] is deleted with them; an empty [<>] is
    kept, and so is a [<] with no [>] after it.  These four equations
    determine the result on every string.  Hence on markup made of text
    pieces without [<] and tags with a non-empty body without [>], the
    result is exactly the text between the tags.  It removes tags, not
    labels: stripping and trimming
    [<strong>Description: </strong>Intro to X.<p>] gives
    [Description: Intro to X.]. *)
Theorem C5_strip_keeps_text :
  (forall t r, existsb (Ascii.eqb "<"%char) t = false ->
     strip_tags (t ++ r) = t ++ strip_tags r) /\
  (forall b r, b <> [] -> existsb (Ascii.eqb ">"%char) b = false ->
     strip_tags ("<"%char :: b ++ ">"%char :: r) = strip_tags r) /\
  (forall r, strip_tags ("<"%char :: ">"%char :: r) = "<"%char :: ">"%char :: strip_tags r) /\
  (forall r, existsb (Ascii.eqb ">"%char) r = false -> strip_tags ("<"%char :: r) = "<"%char :: r) /\
  (forall segs, well_formed segs -> strip_tags (render segs) = texts segs) /\
  strip (strip_tags (lit "<strong>Description: </strong>Intro to X.<p>"))
    = lit "Description: Intro to X.".
Proof.
  split; [|split; [|split; [|split; [|split]]]].
  - intros t r H. apply strip_tags_text, H.
  - intros b r Hne Hb. unfold strip_tags. cbn [strip_tags_in Ascii.eqb].
    apply strip_tags_tag; [exact Hb|exact Hne].
  - intros r. reflexivity.
  - intros r H. unfold strip_tags. cbn [strip_tags_in]. rewrite strip_tags_no_gt by exact H.
    reflexivity.
  - exact strip_tags_render.
  - reflexivity.
Qed.

(** The four equations at work: a literal [<] followed by text and a
    later [>] loses everything up to that [>], while [<>] and an unclosed
    [<] stay. *)
Lemma C5_witness :
  strip_tags (lit "a <b and c> d") = lit "a " ++ strip_tags (lit " d") /\
  strip_tags (lit "<>x<y") = lit "<>x<y".
Proof.
  destruct C5_strip_keeps_text as [H1 [H2 [H3 [H4 _]]]].
  split.
  - change (lit "a <b and c> d") with (lit "a " ++ "<"%char :: lit "b and c" ++ ">"%char :: lit " d").
    rewrite H1 by reflexivity. rewrite H2 by (discriminate || reflexivity). reflexivity.
  - change (lit "<>x<y") with ("<"%char :: ">"%char :: lit "x" ++ "<"%char :: lit "y").
    rewrite H3, H1 by reflexivity. rewrite H4 by reflexivity. reflexivity.
Defined.

(** C5: the example does not give [Intro to X.], and text holding a [<]
    later followed by a [>] loses the characters between them. *)
Lemma C5_counterexample :
  strip (strip_tags (lit "<strong>Description: </strong>Intro to X.<p>")) <> lit "Intro to X." /\
  strip_tags (lit "1 < 2 and 3 > 2") = lit "1  2".
Proof. split; [vm_compute; discriminate|reflexivity]. Qed.

(** ** Lemmas on the tab trace *)

Lemma pairs_counts (n : nat) :
  count_event ENTER (List.concat (List.repeat [VISIT; ENTER] n)) = n /\
  count_event VISIT (List.concat (List.repeat [VISIT; ENTER] n)) = n.
Proof.
  unfold count_event. induction n as [|n [IH1 IH2]]; simpl; [auto|].
  rewrite IH1, IH2. auto.
Qed.

Lemma pairs_visit_followed (n : nat) (pre post : list event) :
  List.concat (List.repeat [VISIT; ENTER] n) = pre ++ VISIT :: post ->
  exists post', post = ENTER :: post'.
Proof.
  revert pre. induction n as [|n IH]; intros pre H; simpl in H.
  - destruct pre; discriminate.
  - destruct pre as [|x pre]; simpl in H.
    + injection H as H. exists (List.concat (List.repeat [VISIT; ENTER] n)). symmetry. exact H.
    + injection H as _ H. destruct pre as [|y pre]; simpl in H; [discriminate|].
      injection H as _ H. exact (IH pre H).
Qed.

Lemma tab_trace_shape (n : nat) :
  count_event VISIT (tab_trace n) = n /\
  count_event ENTER (tab_trace n) = S n /\
  (forall pre post, tab_trace n = pre ++ VISIT :: post -> exists post', post = ENTER :: post').
Proof.
  destruct (pairs_counts n) as [H1 H2]. unfold tab_trace, count_event in *.
  split; [simpl; exact H2|split; [simpl; rewrite H1; reflexivity|]].
  intros pre post H. destruct pre as [|x pre]; simpl in H; [discriminate|].
  injection H as _ H. exact (pairs_visit_followed n pre post H).
Qed.

(** ** Lemmas on sanitized names and detail keys *)

Lemma ok_char_legal (s : pystr) :
  forallb ok_char s = true -> forallb (fun c => negb (is_illegal c)) s = true.
Proof.
  rewrite !forallb_forall. intros H c Hc. specialize (H c Hc).
  unfold ok_char in H. apply andb_prop in H as [H _]. exact H.
Qed.

Lemma detail_row_keys_disjoint (k : string) :
  In k detail_keys -> ~ In k osgoode_row_keys.
Proof.
  intros Hk Hr.
  assert (H : forallb (fun k => negb (existsb (String.eqb k) osgoode_row_keys)) detail_keys = true)
    by reflexivity.
  rewrite forallb_forall in H. specialize (H k Hk).
  apply negb_true_iff in H.
  assert (He : existsb (String.eqb k) osgoode_row_keys = true)
    by (apply existsb_exists; exists k; split; [exact Hr|apply String.eqb_refl]).
  congruence.
Qed.

(** C6.  Each tab is activated once, and re-activated after
    every detail visit, the last one included: with the clicks and the
    navigation back succeeding, the trace of a tab with [n] parsed rows is
    [ENTER] followed by [n] pairs [VISIT, ENTER], so it holds [n] visits,
    [n + 1] activations, and every visit is directly followed by a
    re-activation.  For three rows the trace ends in [ENTER]. *)
Theorem C6_tab_reentered_after_each_visit (w : TabWorld) (ow : OTabWorld)
    (dest_dir : pystr) (tr : list event) :
  tw_click w = Ok tt -> restores_ok (tw_row_world w) ->
  ot_click ow = Ok tt -> orestores_ok (ot_row_world ow) ->
  fst (osgoode_tab w tr) = tr ++ tab_trace (List.length (scrape_links_from_table (tw_rows w))) /\
  fst (outlines_tab dest_dir ow tr) = tr ++ tab_trace (List.length (scrape_course_links (ot_rows ow))) /\
  (forall n, count_event VISIT (tab_trace n) = n /\
             count_event ENTER (tab_trace n) = S n /\
             (forall pre post, tab_trace n = pre ++ VISIT :: post ->
                               exists post', post = ENTER :: post')).
Proof.
  intros Hc Hr Hoc Hor. split; [|split].
  - rewrite (osgoode_tab_ok w tr Hc Hr). reflexivity.
  - rewrite (outlines_tab_ok dest_dir ow tr Hoc Hor). reflexivity.
  - exact tab_trace_shape.
Qed.

Lemma C6_witness :
  fst (osgoode_tab (tab_with [data_row (lit "A") 12] (fun _ => page_A)) []) =
    [] ++ tab_trace (List.length (scrape_links_from_table [data_row (lit "A") 12])) /\
  fst (outlines_tab (lit "DATA/F25") (otab_with [outline_row] pdf_page_timeout) []) =
    [] ++ tab_trace (List.length (scrape_course_links [outline_row])) /\
  (forall n, count_event VISIT (tab_trace n) = n /\
             count_event ENTER (tab_trace n) = S n /\
             (forall pre post, tab_trace n = pre ++ VISIT :: post ->
                               exists post', post = ENTER :: post')).
Proof.
  apply (C6_tab_reentered_after_each_visit
           (tab_with [data_row (lit "A") 12] (fun _ => page_A))
           (otab_with [outline_row] pdf_page_timeout) (lit "DATA/F25") []);
    try reflexivity; intros i; split; reflexivity.
Defined.

(** C6: a three-row tab does not give the six-event trace of the claim;
    the re-activation after the third visit adds a seventh. *)
Lemma C6_counterexample :
  let w := tab_with [data_row (lit "A") 12; data_row (lit "B") 12; data_row (lit "C") 12]
                    (fun _ => page_A) in
  fst (osgoode_tab w []) = [ENTER; VISIT; ENTER; VISIT; ENTER; VISIT; ENTER] /\
  fst (osgoode_tab w []) <> [ENTER; VISIT; ENTER; VISIT; ENTER; VISIT].
Proof. vm_compute. split; [reflexivity|discriminate]. Qed.

(** C7.  For a non-negative cap, [sanitize_filename] is total and its
    result holds none of the characters [<>:/\|?*] or the double quote,
    and is at most [max_len] characters long. *)
Theorem C7_sanitize_filename_safe (name : pystr) (max_len : Z) :
  (0 <= max_len)%Z ->
  forallb (fun c => negb (is_illegal c)) (sanitize_filename_at name max_len) = true /\
  (Z.of_nat (List.length (sanitize_filename_at name max_len)) <= max_len)%Z.
Proof.
  intros Hm. destruct (sanitize_clean name max_len Hm) as [Hc Hl].
  split; [|exact Hl].
  unfold clean in Hc. apply andb_prop in Hc as [Hc _]. apply andb_prop in Hc as [Hc _].
  apply andb_prop in Hc as [Hc _]. apply ok_char_legal, Hc.
Qed.

Lemma C7_witness :
  let name := lit "Contracts: What? *Final* " ++ List.repeat "a"%char 250 in
  (0 <= 200)%Z /\
  forallb (fun c => negb (is_illegal c)) (sanitize_filename_at name 200) = true /\
  (Z.of_nat (List.length (sanitize_filename_at name 200)) <= 200)%Z.
Proof. split; [lia|apply C7_sanitize_filename_safe; lia]. Defined.

(** C8.  Every RowSummary field of either row parser is read at a fixed
    position of the stripped cell texts of its row, and an index at or past
    the cell count gives the empty string: the cell access never fails. *)
Theorem C8_missing_cell_is_empty (rows : list Row) :
  (forall e, In e (scrape_links_from_table rows) ->
   forall k i, In (k, i) osgoode_fields ->
   exists row, In row rows /\
     dict_get e k = Some (if i <? List.length (row_cells row)
                          then strip (nth i (row_cells row) []) else [])) /\
  (forall e, In e (scrape_course_links rows) ->
   forall k i, In (k, i) outlines_fields ->
   exists row, In row rows /\
     dict_get e k = Some (VStr (if i <? List.length (row_cells row)
                                then strip (nth i (row_cells row) []) else []))).
Proof.
  split.
  - intros e He k i Hf.
    destruct (scrape_links_from_table_in rows e He) as [row [t [h [Hin [_ ->]]]]].
    exists row. split; [exact Hin|].
    rewrite (osgoode_entry_field _ _ _ _ _ Hf), cell_at_map_strip. reflexivity.
  - intros e He k i Hf.
    destruct (scrape_course_links_in rows e He) as [row [t [h [Hin [_ ->]]]]].
    exists row. split; [exact Hin|].
    rewrite (outlines_entry_field _ _ _ _ _ Hf), cell_at_map_strip. reflexivity.
Qed.

Lemma C8_witness :
  exists row, In row [outline_row] /\
    dict_get (hd [] (scrape_course_links [outline_row])) "professor" =
      Some (VStr (if 5 <? List.length (row_cells row)
                  then strip (nth 5 (row_cells row) []) else [])).
Proof.
  apply (proj2 (C8_missing_cell_is_empty [outline_row])).
  - vm_compute. left. reflexivity.
  - simpl. tauto.
Defined.

(** C9.  [sanitize_filename] is idempotent. *)
Theorem C9_sanitize_filename_idempotent (s : pystr) :
  sanitize_filename (sanitize_filename s) = sanitize_filename s.
Proof.
  unfold sanitize_filename.
  destruct (sanitize_clean s 200 ltac:(lia)) as [Hc Hl].
  apply sanitize_id; assumption.
Qed.

(** C10.  The keys of a [scrape_description_page] result lie among the
    detail keys, which share none with the RowSummary keys of
    scrape_osgoode.py, so [entry.update(detail)] keeps every row field of
    any entry. *)
Theorem C10_update_keeps_row_fields (page : DetailPage) (href : pystr) (entry : dict pystr) :
  (forall k, In k (map fst (scrape_description_page page href)) -> In k detail_keys) /\
  (forall k, In k detail_keys -> ~ In k osgoode_row_keys) /\
  (forall k, In k osgoode_row_keys ->
     dict_get (dict_update entry (scrape_description_page page href)) k = dict_get entry k).
Proof.
  split; [|split].
  - intros k Hk. destruct (in_dec string_dec k detail_keys) as [H|H]; [exact H|].
    exfalso. exact (dict_get_in _ _ (scrape_description_page_outside page href k H) Hk).
  - exact detail_row_keys_disjoint.
  - intros k Hk. rewrite dict_get_update by apply scrape_description_page_nodup.
    rewrite scrape_description_page_outside; [reflexivity|].
    intros Hd. exact (detail_row_keys_disjoint k Hd Hk).
Qed.

Lemma C10_witness :
  dict_get (dict_update (hd [] (scrape_links_from_table [data_row (lit "A") 12]))
                        (scrape_description_page page_timeout (lit "x"))) "title" =
  dict_get (hd [] (scrape_links_from_table [data_row (lit "A") 12])) "title".
Proof.
  apply (proj2 (proj2 (C10_update_keeps_row_fields page_timeout (lit "x")
                         (hd [] (scrape_links_from_table [data_row (lit "A") 12]))))).
  left. reflexivity.
Defined.

(** ** Further lemmas on sanitize_filename *)

Lemma length_sub_illegal (s : pystr) : List.length (sub_illegal s) = List.length s.
Proof. apply length_map. Qed.

Lemma length_collapse_ws (b : bool) (s : pystr) :
  List.length (collapse_ws b s) <= List.length s.
Proof.
  revert b. induction s as [|c s IH]; intros b; simpl; [lia|].
  pose proof (IH true). pose proof (IH false).
  destruct (is_space c); [destruct b|]; simpl; lia.
Qed.

Lemma length_lstrip (s : pystr) : List.length (lstrip s) <= List.length s.
Proof. induction s as [|c s IH]; simpl; [lia|]. destruct (is_space c); simpl; lia. Qed.

Lemma length_rstrip (s : pystr) : List.length (rstrip s) <= List.length s.
Proof. unfold rstrip. rewrite length_rev. pose proof (length_lstrip (rev s)). rewrite length_rev in H. exact H. Qed.

Lemma length_slice_to (s : pystr) (k : Z) : List.length (slice_to s k) <= List.length s.
Proof. unfold slice_to. destruct (0 <=? k)%Z; rewrite length_firstn; lia. Qed.

Lemma illegal_not_space (c : ascii) : is_illegal c = true -> is_space c = false.
Proof.
  unfold is_illegal. intros H. apply existsb_exists in H as [x [Hx Hc]].
  apply Ascii.eqb_eq in Hc. subst x.
  simpl in Hx. repeat destruct Hx as [<-|Hx]; try reflexivity. contradiction.
Qed.

Lemma forallb_space_sub_illegal (s : pystr) :
  forallb is_space (sub_illegal s) = forallb is_space s.
Proof.
  induction s as [|c s IH]; simpl; [reflexivity|]. rewrite IH.
  destruct (is_illegal c) eqn:E; [|reflexivity].
  rewrite (illegal_not_space c E). reflexivity.
Qed.

Lemma forallb_space_collapse_ws (b : bool) (s : pystr) :
  forallb is_space (collapse_ws b s) = forallb is_space s.
Proof.
  revert b. induction s as [|c s IH]; intros b; simpl; [reflexivity|].
  destruct (is_space c) eqn:E; [destruct b; simpl; rewrite IH; reflexivity|].
  simpl. rewrite E. reflexivity.
Qed.

Lemma lstrip_nil_iff (s : pystr) : lstrip s = [] <-> forallb is_space s = true.
Proof.
  induction s as [|c s IH]; simpl; [split; reflexivity|].
  destruct (is_space c); simpl; [exact IH|split; discriminate].
Qed.

Lemma forallb_rev {A} (f : A -> bool) (s : list A) : forallb f (rev s) = forallb f s.
Proof.
  induction s as [|x s IH]; simpl; [reflexivity|].
  rewrite forallb_app, IH. simpl. rewrite andb_true_r. apply andb_comm.
Qed.

Lemma rstrip_nil_iff (s : pystr) : rstrip s = [] <-> forallb is_space s = true.
Proof.
  unfold rstrip. rewrite <- forallb_rev, <- lstrip_nil_iff.
  split; intros H; [|rewrite H; reflexivity].
  apply (f_equal (@rev ascii)) in H. rewrite rev_involutive in H. exact H.
Qed.

Lemma strip_nil_iff (s : pystr) : strip s = [] <-> forallb is_space s = true.
Proof.
  unfold strip. rewrite rstrip_nil_iff. split.
  - intros H. apply lstrip_nil_iff. pose proof (lstrip_head_ok s) as Hh.
    destruct (lstrip s) as [|c r]; [reflexivity|]. simpl in H, Hh.
    apply negb_true_iff in Hh. rewrite Hh in H. discriminate.
  - intros H. apply lstrip_nil_iff in H. rewrite H. reflexivity.
Qed.

Lemma head_ok_strip (s : pystr) : head_ok (strip s) = true.
Proof.
  unfold strip. destruct (rstrip_prefix (lstrip s)) as [q Hq].
  apply (head_ok_app _ q). rewrite <- Hq. apply lstrip_head_ok.
Qed.

(** The normalized name before the length cap. *)
Lemma sanitize_filename_at_cases (name : pystr) (max_len : Z) :
  let n := strip (collapse_ws false (sub_illegal name)) in
  sanitize_filename_at name max_len =
  if (Z.of_nat (List.length n) >? max_len)%Z then rstrip (slice_to n max_len) else n.
Proof. reflexivity. Qed.

(** ** The non-whitespace characters *)

Lemma visible_app (p q : pystr) : visible (p ++ q) = visible p ++ visible q.
Proof. apply filter_app. Qed.

Lemma visible_sub_illegal (s : pystr) : visible (sub_illegal s) = sub_illegal (visible s).
Proof.
  unfold visible. induction s as [|c s IH]; simpl; [reflexivity|].
  destruct (is_illegal c) eqn:E.
  - rewrite (illegal_not_space c E). simpl. rewrite E, IH. reflexivity.
  - destruct (is_space c); simpl; rewrite ?E, IH; reflexivity.
Qed.

Lemma visible_collapse_ws (b : bool) (s : pystr) : visible (collapse_ws b s) = visible s.
Proof.
  unfold visible. revert b. induction s as [|c s IH]; intros b; simpl; [reflexivity|].
  destruct (is_space c) eqn:E; [destruct b; simpl; apply IH|].
  simpl. rewrite E. simpl. rewrite IH. reflexivity.
Qed.

Lemma visible_lstrip (s : pystr) : visible (lstrip s) = visible s.
Proof.
  unfold visible. induction s as [|c s IH]; simpl; [reflexivity|].
  destruct (is_space c) eqn:E; simpl; [exact IH|rewrite E; reflexivity].
Qed.

Lemma visible_rev (s : pystr) : visible (rev s) = rev (visible s).
Proof.
  induction s as [|c s IH]; [reflexivity|]. cbn [rev].
  rewrite visible_app, IH. unfold visible. simpl.
  destruct (is_space c); simpl; [rewrite app_nil_r|]; reflexivity.
Qed.

Lemma visible_strip (s : pystr) : visible (strip s) = visible s.
Proof.
  unfold strip, rstrip. rewrite visible_rev, visible_lstrip, visible_rev,
    rev_involutive, visible_lstrip. reflexivity.
Qed.

Lemma length_visible_le (s : pystr) : List.length (visible s) <= List.length s.
Proof. apply filter_length_le. Qed.

Lemma lstrip_cases (t : pystr) :
  lstrip t = t \/ (exists c, t = c :: lstrip t) \/
  (exists a b r, t = a :: b :: r /\ is_space a = true /\ is_space b = true).
Proof.
  destruct t as [|a r]; [left; reflexivity|]. simpl.
  destruct (is_space a) eqn:Ea; [|left; reflexivity].
  destruct r as [|b r]; [right; left; exists a; reflexivity|].
  destruct (is_space b) eqn:Eb.
  - right; right. exists a, b, r. auto.
  - right; left. exists a. simpl. rewrite Eb. reflexivity.
Qed.

(** With no two adjacent whitespace characters, [rstrip] removes at most
    one character. *)
Lemma no_adj_rstrip_length (s : pystr) :
  no_adj s = true -> List.length s <= S (List.length (rstrip s)).
Proof.
  intros H. unfold rstrip. rewrite length_rev.
  rewrite <- (length_rev s).
  destruct (lstrip_cases (rev s)) as [E|[[c E]|[a [b [r [E [Ha Hb]]]]]]].
  - rewrite E. lia.
  - rewrite E at 1. simpl. lia.
  - exfalso. assert (Hs : s = rev r ++ [b; a]).
    { rewrite <- (rev_involutive s), E. simpl. rewrite <- app_assoc. reflexivity. }
    rewrite Hs in H. apply no_adj_app in H as [_ H]. simpl in H.
    rewrite Hb, Ha in H. discriminate.
Qed.

(** ** Further lemmas on tag stripping *)

Lemma no_gt_no_tag (s : pystr) :
  existsb (Ascii.eqb ">"%char) s = false -> no_tag s = true.
Proof.
  induction s as [|c s IH]; intros H; [reflexivity|].
  cbn [existsb] in H. apply orb_false_iff in H as [_ H].
  cbn [no_tag]. rewrite (IH H), andb_true_r.
  destruct s as [|d r]; [reflexivity|]. cbn [existsb] in H. apply orb_false_iff in H as [_ H].
  unfold tag_at. rewrite H, andb_false_r. reflexivity.
Qed.

(** The first [>] of a string splits it. *)
Lemma split_first_gt (s : pystr) :
  existsb (Ascii.eqb ">"%char) s = true ->
  exists p q, s = p ++ ">"%char :: q /\ existsb (Ascii.eqb ">"%char) p = false.
Proof.
  induction s as [|c s IH]; intros H; [discriminate|].
  destruct (Ascii.eqb ">"%char c) eqn:E.
  - apply Ascii.eqb_eq in E. subst c. exists [], s. auto.
  - cbn [existsb] in H. rewrite E in H. destruct (IH H) as [p [q [-> Hp]]].
    exists (c :: p), q. cbn [existsb app]. rewrite E. auto.
Qed.

Lemma strip_tags_output_no_tag (n : nat) (s : pystr) :
  List.length s <= n -> no_tag (strip_tags_in None s) = true.
Proof.
  revert s. induction n as [|n IH]; intros s Hl.
  - destruct s; [reflexivity|simpl in Hl; lia].
  - destruct s as [|c r]; [reflexivity|]. simpl in Hl.
    cbn [strip_tags_in]. destruct (Ascii.eqb c "<"%char) eqn:Ec.
    + destruct (existsb (Ascii.eqb ">"%char) r) eqn:Eg.
      * destruct (split_first_gt r Eg) as [p [q [-> Hp]]].
        rewrite length_app in Hl. simpl in Hl.
        destruct p as [|a p].
        -- cbn [app strip_tags_in]. rewrite Ascii.eqb_refl.
           cbn [no_tag]. rewrite (IH q ltac:(lia)). unfold tag_at.
           destruct (strip_tags_in None q); reflexivity.
        -- rewrite strip_tags_tag by (exact Hp || discriminate). apply IH. simpl in Hl. lia.
      * rewrite strip_tags_no_gt by exact Eg. apply no_gt_no_tag.
        cbn [app existsb]. rewrite Eg. reflexivity.
    + cbn [no_tag]. rewrite (IH r ltac:(lia)), andb_true_r.
      unfold tag_at. destruct (strip_tags_in None r); [reflexivity|].
      rewrite Ec. reflexivity.
Qed.

Lemma strip_tags_id_in (n : nat) (s : pystr) :
  List.length s <= n -> no_tag s = true -> strip_tags_in None s = s.
Proof.
  revert s. induction n as [|n IH]; intros s Hl Hs.
  - destruct s; [reflexivity|simpl in Hl; lia].
  - destruct s as [|c r]; [reflexivity|]. simpl in Hl.
    cbn [no_tag] in Hs. apply andb_prop in Hs as [Ht Hr].
    cbn [strip_tags_in]. destruct (Ascii.eqb c "<"%char) eqn:Ec.
    + apply Ascii.eqb_eq in Ec. subst c.
      destruct r as [|d r']; [reflexivity|].
      cbn [strip_tags_in]. destruct (Ascii.eqb d ">"%char) eqn:Ed.
      * apply Ascii.eqb_eq in Ed. subst d.
        cbn [no_tag] in Hr. apply andb_prop in Hr as [_ Hr'].
        rewrite (IH r' ltac:(simpl in Hl; lia) Hr'). reflexivity.
      * unfold tag_at in Ht. rewrite Ed in Ht. simpl in Ht.
        apply negb_true_iff in Ht.
        rewrite strip_tags_no_gt by exact Ht. reflexivity.
    + rewrite (IH r ltac:(lia) Hr). reflexivity.
Qed.

Lemma no_tag_suffix (p q : pystr) : no_tag (p ++ q) = true -> no_tag q = true.
Proof.
  induction p as [|c p IH]; intros H; [exact H|].
  cbn [app no_tag] in H. apply andb_prop in H as [_ H]. exact (IH H).
Qed.

Lemma tag_at_app (p q : pystr) : tag_at p = true -> tag_at (p ++ q) = true.
Proof.
  destruct p as [|c [|d r]]; try discriminate. simpl.
  intros H. apply andb_prop in H as [H1 H2]. rewrite H1, existsb_app, H2. reflexivity.
Qed.

Lemma no_tag_prefix (p q : pystr) : no_tag (p ++ q) = true -> no_tag p = true.
Proof.
  induction p as [|c p IH]; intros H; [reflexivity|].
  cbn [app no_tag] in H |- *. apply andb_prop in H as [H1 H2].
  rewrite (IH H2), andb_true_r.
  destruct (tag_at (c :: p)) eqn:E; [|reflexivity].
  pose proof (tag_at_app (c :: p) q E) as E2. cbn [app] in E2.
  rewrite E2 in H1. discriminate.
Qed.

Lemma no_tag_strip (s : pystr) : no_tag s = true -> no_tag (strip s) = true.
Proof.
  intros H. unfold strip. destruct (lstrip_suffix s) as [p Hp].
  rewrite Hp in H. apply no_tag_suffix in H.
  destruct (rstrip_prefix (lstrip s)) as [q Hq]. rewrite Hq in H.
  exact (no_tag_prefix _ _ H).
Qed.

(** ** Further lemmas on scrape_description_page *)

Lemma trimmed_strip (s : pystr) : trimmed (strip s) = true.
Proof. unfold trimmed. rewrite head_ok_strip. apply rstrip_tail_ok. Qed.

Lemma no_tag_strip_tags (s : pystr) : no_tag (strip (strip_tags s)) = true.
Proof. apply no_tag_strip, (strip_tags_output_no_tag (List.length s) s (le_n _)). Qed.

Lemma values_ok_set (d : dict pystr) (k : string) (v : pystr) :
  detail_values_ok d -> detail_value_ok k v -> detail_values_ok (dict_set d k v).
Proof.
  intros Hd Hv k' v' H. rewrite dict_get_set in H.
  destruct (String.eqb k' k) eqn:E; [|exact (Hd k' v' H)].
  apply String.eqb_eq in E. subst k'. injection H as <-. exact Hv.
Qed.

Lemma text_key_not_fpt (k : string) : In k text_keys -> k <> "full_page_text"%string.
Proof. intros H ->. simpl in H. intuition discriminate. Qed.

Lemma text_key_not_term (k : string) : In k text_keys -> k <> "term"%string.
Proof. intros H ->. simpl in H. intuition discriminate. Qed.

Lemma value_ok_text (k : string) (v : pystr) :
  In k text_keys -> trimmed v = true -> no_tag v = true -> detail_value_ok k v.
Proof.
  intros Hk Ht Hn. split; [auto|split].
  - intros E. exfalso. exact (text_key_not_fpt k Hk E).
  - intros E. exfalso. exact (text_key_not_term k Hk E).
Qed.

Lemma value_ok_span (k : string) (g : pystr) :
  In k text_keys -> detail_value_ok k (strip (strip_tags g)).
Proof. intros Hk. apply value_ok_text; [exact Hk|apply trimmed_strip|apply no_tag_strip_tags]. Qed.

Lemma value_ok_bold (k : string) (html : pystr) (lab : label_re) :
  In k text_keys -> detail_value_ok k (extract_bold html lab).
Proof.
  intros Hk. unfold extract_bold. destruct (search_from _ _); [apply value_ok_span, Hk|].
  apply value_ok_text; [exact Hk|reflexivity|reflexivity].
Qed.

Lemma value_ok_fpt (v : pystr) : trimmed v = true -> detail_value_ok "full_page_text" v.
Proof.
  intros Ht. split; [|split; [auto|intros E; discriminate E]].
  intros H. simpl in H. intuition discriminate.
Qed.

Lemma value_ok_term (v : pystr) : In v TERM_VALUES -> detail_value_ok "term" v.
Proof.
  intros Ht. split; [|split; [intros E; discriminate E|auto]].
  intros H. simpl in H. intuition discriminate.
Qed.

Lemma value_ok_error (e : pystr) : detail_value_ok "error" e.
Proof.
  split; [|split; intros E; discriminate E].
  intros H. simpl in H. intuition discriminate.
Qed.

Lemma first_some_term (s w : pystr) :
  first_some (fun w => if startswith s (w ++ lit "</b>") then Some w else None)
             [lit "Fall"; lit "Winter"; lit "Year"] = Some w ->
  In w TERM_VALUES.
Proof.
  cbn [first_some].
  destruct (startswith s (lit "Fall" ++ lit "</b>")); [intros [= <-]; simpl; auto|].
  destruct (startswith s (lit "Winter" ++ lit "</b>")); [intros [= <-]; simpl; auto|].
  destruct (startswith s (lit "Year" ++ lit "</b>")); [intros [= <-]; simpl; auto|].
  discriminate.
Qed.

Lemma search_term_value (html w : pystr) :
  search_from term_at html = Some w -> In w TERM_VALUES.
Proof.
  intros H. apply search_from_some in H as [p [t [_ Ht]]].
  unfold term_at in Ht. destruct (startswith t (lit "<b>")); [|discriminate].
  exact (first_some_term _ _ Ht).
Qed.

Lemma in_text_keys (k : string) :
  k = "description"%string \/ k = "evaluation"%string \/ k = "sidebar_credits"%string \/
  k = "sidebar_hours"%string \/ k = "max_enrollment"%string \/
  k = "prerequisite_courses"%string \/ k = "preferred_courses"%string \/
  k = "presentation"%string \/ k = "upper_year_writing"%string \/
  k = "praxicum_detail"%string -> In k text_keys.
Proof. unfold text_keys. simpl. intuition. Qed.

Ltac value_ok :=
  match goal with
  | |- detail_value_ok "term" _ => apply value_ok_term
  | |- detail_value_ok "full_page_text" _ => apply value_ok_fpt
  | |- detail_value_ok _ (extract_bold _ _) => apply value_ok_bold, in_text_keys; intuition
  | |- detail_value_ok _ (strip (strip_tags _)) => apply value_ok_span, in_text_keys; intuition
  end.

Lemma extract_sidebar_values_ok html :
  preserves detail_values_ok (extract_sidebar html).
Proof.
  unfold extract_sidebar.
  apply preserves_bind; [|intros _].
  { apply preserves_modify. intros d Hd. apply values_ok_set; [exact Hd|].
    apply value_ok_term. simpl. auto. }
  apply preserves_bind; [|intros _].
  { destruct (search_from term_at html) eqn:E; [|apply preserves_ret].
    apply preserves_modify. intros d Hd. apply values_ok_set; [exact Hd|].
    apply value_ok_term. exact (search_term_value _ _ E). }
  repeat preserves_step; (apply values_ok_set; [assumption|value_ok]).
Qed.

Lemma body_values_ok page url :
  preserves detail_values_ok (scrape_description_body page url).
Proof.
  unfold scrape_description_body, extract_main.
  repeat match goal with
    | |- preserves _ (extract_sidebar _) => apply extract_sidebar_values_ok
    | _ => preserves_step
    end; apply values_ok_set; try assumption; try value_ok.
  match goal with |- trimmed (match ?x with _ => _ end) = true => destruct x as [[|ch t]|] end;
    [reflexivity|apply trimmed_strip|reflexivity].
Qed.

Lemma scrape_description_page_values_ok page href :
  detail_values_ok (scrape_description_page page href).
Proof.
  unfold scrape_description_page.
  apply preserves_try_except; [apply body_values_ok| |].
  - intros e. apply preserves_modify. intros d Hd. apply values_ok_set; [exact Hd|apply value_ok_error].
  - intros k v H. discriminate H.
Qed.

Lemma bind_ok_inv {S A B} (m : M S A) (k : A -> M S B) (s s' : S) (b : B) :
  bind m k s = (s', Ok b) -> exists s1 a, m s = (s1, Ok a) /\ k a s1 = (s', Ok b).
Proof.
  unfold bind. destruct (m s) as [s1 [a|e]]; [|discriminate]. intros H. exists s1, a. auto.
Qed.

Ltac eqb_lits :=
  repeat match goal with
  | |- context [String.eqb ?a ?b] =>
      first [replace (String.eqb a b) with true by reflexivity
            |replace (String.eqb a b) with false by reflexivity]
  end.

Lemma extract_sidebar_keys html d k :
  In k sidebar_keys -> dict_get (fst (extract_sidebar html d)) k <> None.
Proof.
  intros Hk. unfold extract_sidebar, bind, set_key, modify, ret.
  destruct (search_from term_at html); cbn [fst];
    simpl in Hk; repeat destruct Hk as [<-|Hk]; try contradiction;
    rewrite !dict_get_set; eqb_lits; cbv beta iota; discriminate.
Qed.

(** When the [try] body of [scrape_description_page] completes, the
    result is its final state. *)
Lemma scrape_description_page_ok page href d :
  scrape_description_body page (detail_url href) [] = (d, Ok tt) ->
  scrape_description_page page href = d.
Proof. intros H. unfold scrape_description_page, try_except. rewrite H. reflexivity. Qed.

Lemma strip_collapse_pre_clean (name : pystr) :
  pre_clean (strip (collapse_ws false (sub_illegal name))) = true.
Proof.
  set (s2 := collapse_ws false (sub_illegal name)).
  destruct (collapse_ws_shape false (sub_illegal name) (sub_illegal_legal name))
    as [A1 [A2 _]]. fold s2 in A1, A2.
  assert (P1 : pre_clean (lstrip s2) = true).
  { destruct (lstrip_suffix s2) as [p Hp]. unfold pre_clean.
    rewrite Hp in A1, A2. apply forallb_app_l in A1 as [_ A1].
    apply no_adj_app in A2 as [_ A2]. rewrite A1, A2, lstrip_head_ok. reflexivity. }
  exact (proj1 (pre_clean_rstrip _ P1)).
Qed.

(** A truncated name loses at most one more character, a trailing space. *)
Lemma sanitize_truncated_length (name : pystr) (max_len : Z) :
  (0 <= max_len)%Z ->
  (Z.of_nat (List.length (strip (collapse_ws false (sub_illegal name)))) > max_len)%Z ->
  Z.to_nat max_len <= S (List.length (sanitize_filename_at name max_len)).
Proof.
  intros Hm Hgt. rewrite sanitize_filename_at_cases. cbv zeta.
  set (n := strip (collapse_ws false (sub_illegal name))) in *.
  replace (Z.of_nat (List.length n) >? max_len)%Z with true by (symmetry; apply Z.gtb_lt; lia).
  unfold slice_to. replace (0 <=? max_len)%Z with true by (symmetry; apply Z.leb_le; lia).
  assert (Hp : pre_clean (firstn (Z.to_nat max_len) n) = true).
  { destruct (firstn_prefix (Z.to_nat max_len) n) as [q Hq].
    apply (pre_clean_prefix _ q). rewrite <- Hq. apply strip_collapse_pre_clean. }
  unfold pre_clean in Hp. apply andb_prop in Hp as [Hp _]. apply andb_prop in Hp as [_ Hp].
  pose proof (no_adj_rstrip_length _ Hp) as H.
  rewrite length_firstn in H. lia.
Qed.

(** * Further properties of the code *)

(** [sanitize_filename] normalizes whitespace and respects the cap: for a
    non-negative cap, the result holds no illegal character, its only
    whitespace characters are single spaces between other characters, it
    neither starts nor ends with whitespace, and it has at most [max_len]
    characters. *)
Theorem sanitize_filename_normalized (name : pystr) (max_len : Z) :
  (0 <= max_len)%Z ->
  clean (sanitize_filename_at name max_len) = true /\
  (Z.of_nat (List.length (sanitize_filename_at name max_len)) <= max_len)%Z.
Proof. intros Hm. exact (sanitize_clean name max_len Hm). Qed.

Lemma sanitize_filename_normalized_witness :
  (0 <= 5)%Z /\
  clean (sanitize_filename_at (lit " Civil  Procedure:	Outline?.pdf ") 5) = true /\
  (Z.of_nat (List.length (sanitize_filename_at (lit " Civil  Procedure:	Outline?.pdf ") 5)) <= 5)%Z.
Proof. split; [lia|apply sanitize_filename_normalized; lia]. Defined.

(** The names [sanitize_filename] leaves unchanged are exactly the
    normalized names within the cap. *)
Theorem sanitize_filename_fixed_points (s : pystr) (max_len : Z) :
  (0 <= max_len)%Z ->
  (sanitize_filename_at s max_len = s <->
   clean s = true /\ (Z.of_nat (List.length s) <= max_len)%Z).
Proof.
  intros Hm. split.
  - intros H. destruct (sanitize_clean s max_len Hm) as [Hc Hl]. rewrite H in Hc, Hl. auto.
  - intros [Hc Hl]. exact (sanitize_id s max_len Hc Hl).
Qed.

Lemma sanitize_filename_fixed_points_witness :
  (0 <= 200)%Z /\
  (sanitize_filename_at (lit "Torts Outline.pdf") 200 = lit "Torts Outline.pdf" <->
   clean (lit "Torts Outline.pdf") = true /\
   (Z.of_nat (List.length (lit "Torts Outline.pdf")) <= 200)%Z).
Proof. split; [lia|apply sanitize_filename_fixed_points; lia]. Defined.

(** [sanitize_filename] never lengthens a name, whatever the cap. *)
Theorem sanitize_filename_not_longer (name : pystr) (max_len : Z) :
  List.length (sanitize_filename_at name max_len) <= List.length name.
Proof.
  rewrite sanitize_filename_at_cases. cbv zeta.
  assert (H : List.length (strip (collapse_ws false (sub_illegal name))) <= List.length name).
  { unfold strip. pose proof (length_rstrip (lstrip (collapse_ws false (sub_illegal name)))).
    pose proof (length_lstrip (collapse_ws false (sub_illegal name))).
    pose proof (length_collapse_ws false (sub_illegal name)).
    rewrite length_sub_illegal in *. lia. }
  destruct (_ >? _)%Z; [|exact H].
  pose proof (length_rstrip (slice_to (strip (collapse_ws false (sub_illegal name))) max_len)).
  pose proof (length_slice_to (strip (collapse_ws false (sub_illegal name))) max_len). lia.
Qed.

(** For a positive cap, [sanitize_filename] returns the empty string
    exactly when the name is made of whitespace only (the empty name
    included). *)
Theorem sanitize_filename_empty_iff (name : pystr) (max_len : Z) :
  (0 < max_len)%Z ->
  (sanitize_filename_at name max_len = [] <-> forallb is_space name = true).
Proof.
  intros Hm. rewrite sanitize_filename_at_cases. cbv zeta.
  set (n := strip (collapse_ws false (sub_illegal name))).
  assert (Hn : n = [] <-> forallb is_space name = true).
  { unfold n. rewrite strip_nil_iff, forallb_space_collapse_ws, forallb_space_sub_illegal.
    reflexivity. }
  rewrite <- Hn. pose proof (head_ok_strip (collapse_ws false (sub_illegal name))) as Hh.
  fold n in Hh.
  destruct n as [|c r] eqn:En.
  - simpl. replace (0 >? max_len)%Z with false by (symmetry; rewrite Z.gtb_ltb; apply Z.ltb_ge; lia).
    split; reflexivity.
  - split; [|discriminate]. intros H.
    destruct (Z.of_nat (List.length (c :: r)) >? max_len)%Z; [|exact H].
    apply rstrip_nil_iff in H. unfold slice_to in H.
    replace (0 <=? max_len)%Z with true in H by (symmetry; apply Z.leb_le; lia).
    destruct (Z.to_nat max_len) as [|k] eqn:Ek; [lia|].
    simpl in H, Hh. apply negb_true_iff in Hh. rewrite Hh in H. discriminate.
Qed.

Lemma sanitize_filename_empty_iff_witness :
  (0 < 200)%Z /\ (sanitize_filename_at (lit "  ") 200 = [] <-> forallb is_space (lit "  ") = true).
Proof. split; [lia|apply sanitize_filename_empty_iff; lia]. Defined.

(** Below the cap nothing visible is lost: the non-whitespace characters
    of the result are those of the name, in order, each illegal one
    replaced by an underscore. *)
Theorem sanitize_filename_keeps_visible (name : pystr) (max_len : Z) :
  (Z.of_nat (List.length name) <= max_len)%Z ->
  visible (sanitize_filename_at name max_len) = sub_illegal (visible name).
Proof.
  intros Hl. rewrite sanitize_filename_at_cases. cbv zeta.
  assert (H : List.length (strip (collapse_ws false (sub_illegal name))) <= List.length name).
  { unfold strip. pose proof (length_rstrip (lstrip (collapse_ws false (sub_illegal name)))).
    pose proof (length_lstrip (collapse_ws false (sub_illegal name))).
    pose proof (length_collapse_ws false (sub_illegal name)).
    rewrite length_sub_illegal in *. lia. }
  replace (_ >? max_len)%Z with false by (symmetry; rewrite Z.gtb_ltb; apply Z.ltb_ge; lia).
  rewrite visible_strip, visible_collapse_ws, visible_sub_illegal. reflexivity.
Qed.

Lemma sanitize_filename_keeps_visible_witness :
  (Z.of_nat (List.length (lit "Tax: Part I/II")) <= 200)%Z /\
  visible (sanitize_filename_at (lit "Tax: Part I/II") 200) = sub_illegal (visible (lit "Tax: Part I/II")).
Proof. split; [vm_compute; discriminate|apply sanitize_filename_keeps_visible; vm_compute; discriminate]. Defined.

(** [re.sub(r'<[^>]+>', '', s)] leaves no match of its pattern behind, and
    it leaves a string without such a match unchanged; so stripping twice
    is stripping once. *)
Theorem strip_tags_idempotent (s : pystr) :
  no_tag (strip_tags s) = true /\
  (no_tag s = true -> strip_tags s = s) /\
  strip_tags (strip_tags s) = strip_tags s.
Proof.
  assert (Hn : no_tag (strip_tags s) = true)
    by exact (strip_tags_output_no_tag (List.length s) s (le_n _)).
  split; [exact Hn|split].
  - intros H. exact (strip_tags_id_in (List.length s) s (le_n _) H).
  - exact (strip_tags_id_in _ _ (le_n _) Hn).
Qed.

Lemma strip_tags_idempotent_witness :
  no_tag (strip_tags (lit "<<b>x>1 < 2")) = true /\
  (no_tag (lit "<<b>x>1 < 2") = true -> strip_tags (lit "<<b>x>1 < 2") = lit "<<b>x>1 < 2") /\
  strip_tags (strip_tags (lit "<<b>x>1 < 2")) = strip_tags (lit "<<b>x>1 < 2").
Proof. apply strip_tags_idempotent. Defined.

(** The fields filled from a regular expression match (description,
    evaluation and the eight [extract_bold] fields) neither start nor end
    with whitespace and hold no markup tag; [full_page_text] neither starts
    nor ends with whitespace. *)
Theorem scrape_description_page_values_trimmed (page : DetailPage) (href : pystr)
    (k : string) (v : pystr) :
  dict_get (scrape_description_page page href) k = Some v ->
  (In k text_keys -> trimmed v = true /\ no_tag v = true) /\
  (k = "full_page_text"%string -> trimmed v = true).
Proof.
  intros H. destruct (scrape_description_page_values_ok page href k v H) as [H1 [H2 _]].
  split; assumption.
Qed.

Lemma scrape_description_page_values_trimmed_witness :
  dict_get (scrape_description_page page_A (lit "x")) "description"%string = Some (lit "Text A") /\
  (In "description"%string text_keys -> trimmed (lit "Text A") = true /\ no_tag (lit "Text A") = true) /\
  ("description"%string = "full_page_text"%string -> trimmed (lit "Text A") = true).
Proof.
  assert (H : dict_get (scrape_description_page page_A (lit "x")) "description"%string = Some (lit "Text A"))
    by (vm_compute; reflexivity).
  split; [exact H|exact (scrape_description_page_values_trimmed _ _ _ _ H)].
Defined.

(** The [term] field, when present, is the empty string or one of
    [Fall], [Winter] and [Year]. *)
Theorem scrape_description_page_term_values (page : DetailPage) (href v : pystr) :
  dict_get (scrape_description_page page href) "term"%string = Some v -> In v TERM_VALUES.
Proof.
  intros H. destruct (scrape_description_page_values_ok page href "term"%string v H) as [_ [_ H3]].
  exact (H3 eq_refl).
Qed.

Lemma scrape_description_page_term_values_witness :
  let page := {| dp_goto := fun _ => Ok tt; dp_wait := Ok tt; dp_main_html := Ok None;
                 dp_main_text := Ok None;
                 dp_sidebar_html := Ok (Some (lit "Term: <b>Winter</b> Credits: <b>3</b>")) |} in
  dict_get (scrape_description_page page (lit "x")) "term"%string = Some (lit "Winter") /\
  In (lit "Winter") TERM_VALUES.
Proof.
  intros page.
  assert (H : dict_get (scrape_description_page page (lit "x")) "term"%string = Some (lit "Winter"))
    by (vm_compute; reflexivity).
  split; [exact H|exact (scrape_description_page_term_values _ _ _ H)].
Defined.

(** When navigating to the detail page, or the wait after it, raises, the
    result holds the [error] field and nothing else. *)
Theorem scrape_description_page_navigation_error (page : DetailPage) (href e : pystr) :
  dp_goto page (detail_url href) = Exc e \/
  (dp_goto page (detail_url href) = Ok tt /\ dp_wait page = Exc e) ->
  scrape_description_page page href = [("error"%string, e)].
Proof.
  unfold scrape_description_page, try_except, scrape_description_body, bind, lift.
  intros [H|[H1 H2]]; [rewrite H|rewrite H1, H2]; reflexivity.
Qed.

Lemma scrape_description_page_navigation_error_witness :
  (dp_goto page_timeout (detail_url (lit "x")) = Exc (lit "Timeout 30000ms exceeded.") \/
   (dp_goto page_timeout (detail_url (lit "x")) = Ok tt /\
    dp_wait page_timeout = Exc (lit "Timeout 30000ms exceeded."))) /\
  scrape_description_page page_timeout (lit "x") =
    [("error"%string, lit "Timeout 30000ms exceeded.")].
Proof.
  assert (H : dp_goto page_timeout (detail_url (lit "x")) = Exc (lit "Timeout 30000ms exceeded.") \/
              (dp_goto page_timeout (detail_url (lit "x")) = Ok tt /\
               dp_wait page_timeout = Exc (lit "Timeout 30000ms exceeded.")))
    by (left; reflexivity).
  split; [exact H|exact (scrape_description_page_navigation_error _ _ _ H)].
Defined.

(** A page on which neither the main content area nor the sidebar is found
    (the script returns [null] or an empty string) gives an empty record,
    with no [error] field: nothing tells it apart from a page without any
    field. *)
Theorem scrape_description_page_no_regions (page : DetailPage) (href : pystr) :
  dp_goto page (detail_url href) = Ok tt -> dp_wait page = Ok tt ->
  (dp_main_html page = Ok None \/ dp_main_html page = Ok (Some [])) ->
  (dp_sidebar_html page = Ok None \/ dp_sidebar_html page = Ok (Some [])) ->
  scrape_description_page page href = [].
Proof.
  unfold scrape_description_page, try_except, scrape_description_body, bind, lift, ret.
  intros H1 H2 H3 H4. rewrite H1, H2.
  destruct H3 as [H3|H3]; rewrite H3; destruct H4 as [H4|H4]; rewrite H4; reflexivity.
Qed.

Lemma scrape_description_page_no_regions_witness :
  let page := {| dp_goto := fun _ => Ok tt; dp_wait := Ok tt; dp_main_html := Ok None;
                 dp_main_text := Ok None; dp_sidebar_html := Ok (Some []) |} in
  scrape_description_page page (lit "x") = [].
Proof.
  intros page. apply scrape_description_page_no_regions; try reflexivity; [left|right]; reflexivity.
Defined.

(** When the sidebar is found and no call raises, every sidebar field is
    present in the result, an unmatched label giving the empty string. *)
Theorem scrape_description_page_sidebar_complete (page : DetailPage) (href c : pystr) :
  body_error page href = None ->
  dp_sidebar_html page = Ok (Some c) -> c <> [] ->
  forall k, In k sidebar_keys -> dict_get (scrape_description_page page href) k <> None.
Proof.
  intros He Hs Hc k Hk. unfold body_error in He.
  destruct (scrape_description_body page (detail_url href) []) as [d [u|e]] eqn:Eb;
    [|discriminate]. destruct u.
  rewrite (scrape_description_page_ok _ _ _ Eb).
  unfold scrape_description_body in Eb.
  do 4 (apply bind_ok_inv in Eb as [? [? [_ Eb]]]).
  apply bind_ok_inv in Eb as [s1 [sh [Esh Eb]]].
  unfold lift in Esh. rewrite Hs in Esh. injection Esh as <- <-.
  destruct c as [|ch r]; [contradiction|]. cbv beta iota in Eb.
  match type of Eb with
  | extract_sidebar _ ?st = _ => pose proof (extract_sidebar_keys (ch :: r) st k Hk) as H
  end.
  rewrite Eb in H. exact H.
Qed.

Lemma scrape_description_page_sidebar_complete_witness :
  let page := {| dp_goto := fun _ => Ok tt; dp_wait := Ok tt; dp_main_html := Ok None;
                 dp_main_text := Ok None;
                 dp_sidebar_html := Ok (Some (lit "Credits: <b>3</b>")) |} in
  dict_get (scrape_description_page page (lit "x")) "praxicum_detail"%string <> None.
Proof.
  intros page. apply (scrape_description_page_sidebar_complete page (lit "x") (lit "Credits: <b>3</b>"));
    [reflexivity|reflexivity|discriminate|simpl; tauto].
Defined.

(** ** Further lemmas on the downloads *)

Lemma startswith_split (s p : pystr) : startswith s p = true -> exists r, s = p ++ r.
Proof.
  revert s. induction p as [|c p IH]; intros s H; [exists s; reflexivity|].
  destruct s as [|d s]; [discriminate|]. cbn [startswith] in H.
  apply andb_prop in H as [H1 H2]. apply Ascii.eqb_eq in H1. subst d.
  destruct (IH s H2) as [r ->]. exists r. reflexivity.
Qed.

Lemma endswith_split (s p : pystr) : endswith s p = true -> exists x, s = x ++ p.
Proof.
  unfold endswith. intros H. destruct (startswith_split _ _ H) as [r Hr].
  exists (rev r). rewrite <- (rev_involutive s), Hr, rev_app_distr, rev_involutive. reflexivity.
Qed.

Lemma is_space_lower_char (c : ascii) : is_space (lower_char c) = is_space c.
Proof.
  unfold lower_char, is_space.
  destruct ((65 <=? nat_of_ascii c) && (nat_of_ascii c <=? 90)) eqn:E; [|reflexivity].
  apply andb_prop in E as [E1 E2]. apply Nat.leb_le in E1. apply Nat.leb_le in E2.
  rewrite nat_ascii_embedding by lia.
  replace (9 <=? nat_of_ascii c + 32) with true by (symmetry; apply Nat.leb_le; lia).
  replace (nat_of_ascii c + 32 <=? 13) with false by (symmetry; apply Nat.leb_gt; lia).
  replace (28 <=? nat_of_ascii c + 32) with true by (symmetry; apply Nat.leb_le; lia).
  replace (nat_of_ascii c + 32 <=? 32) with false by (symmetry; apply Nat.leb_gt; lia).
  replace (9 <=? nat_of_ascii c) with true by (symmetry; apply Nat.leb_le; lia).
  replace (nat_of_ascii c <=? 13) with false by (symmetry; apply Nat.leb_gt; lia).
  replace (28 <=? nat_of_ascii c) with true by (symmetry; apply Nat.leb_le; lia).
  replace (nat_of_ascii c <=? 32) with false by (symmetry; apply Nat.leb_gt; lia).
  reflexivity.
Qed.

Lemma length_visible_lower (s : pystr) : List.length (visible (lower s)) = List.length (visible s).
Proof.
  unfold visible, lower. induction s as [|c s IH]; [reflexivity|]. cbn [map filter].
  rewrite is_space_lower_char. destruct (is_space c); simpl; rewrite IH; reflexivity.
Qed.

Lemma suffix_visible (s p : pystr) :
  endswith (lower s) p = true -> List.length (visible p) <= List.length (visible s).
Proof.
  intros H. destruct (endswith_split _ _ H) as [x Hx].
  rewrite <- (length_visible_lower s), Hx, visible_app, length_app. lia.
Qed.

(** A name with at least three visible characters keeps at least three
    characters. *)
Lemma sanitize_filename_length_lb (name : pystr) :
  3 <= List.length (visible name) -> 3 <= List.length (sanitize_filename name).
Proof.
  intros H. unfold sanitize_filename.
  destruct (Z.of_nat (List.length (strip (collapse_ws false (sub_illegal name)))) >? 200)%Z eqn:E.
  - rewrite Z.gtb_ltb in E. apply Z.ltb_lt in E.
    pose proof (sanitize_truncated_length name 200 ltac:(lia) ltac:(lia)) as L.
    simpl in L. lia.
  - rewrite sanitize_filename_at_cases. cbv zeta. rewrite E. cbv beta iota.
    pose proof (length_visible_le (strip (collapse_ws false (sub_illegal name)))) as L.
    rewrite visible_strip, visible_collapse_ws, visible_sub_illegal in L.
    assert (Ls : List.length (sub_illegal (visible name)) = List.length (visible name))
      by (unfold sub_illegal; apply length_map).
    lia.
Qed.

Lemma sanitize_filename_ok_chars (name : pystr) : forallb ok_char (sanitize_filename name) = true.
Proof.
  destruct (sanitize_clean name 200 ltac:(lia)) as [H _]. unfold clean in H.
  apply andb_prop in H as [H _]. apply andb_prop in H as [H _]. apply andb_prop in H as [H _].
  exact H.
Qed.

Lemma saved_ok_snoc (dest_dir : pystr) (saved : list pystr) (p : pystr) :
  saved_ok dest_dir saved -> saved_path_ok dest_dir p -> saved_ok dest_dir (saved ++ [p]).
Proof.
  intros Hs Hp q Hq. apply in_app_or in Hq as [Hq|[<-|[]]]; [exact (Hs q Hq)|exact Hp].
Qed.

Lemma download_one_saved_ok page dest_dir entry li :
  preserves (saved_ok dest_dir) (download_one page dest_dir entry li).
Proof.
  destruct li as [h n]. intros s Hs. unfold download_one, bind, lift, ret, modify.
  destruct (pp_get page _) as [[|]|e]; cbn [negb fst]; try exact Hs.
  destruct (pp_body page _); cbn [fst]; [|exact Hs].
  match goal with
  | |- context [if (match n with [] => false | _ :: _ => true end && ?c) then _ else _] =>
      destruct (match n with [] => false | _ :: _ => true end && c) eqn:Ec
  end.
  - destruct (pp_write page _); cbn [fst]; [|exact Hs].
    apply saved_ok_snoc; [exact Hs|]. eexists. split; [reflexivity|].
    split; [apply sanitize_filename_ok_chars|]. apply sanitize_filename_length_lb.
    apply andb_prop in Ec as [_ Ec].
    apply orb_prop in Ec as [Ec|Ec]; [apply orb_prop in Ec as [Ec|Ec]|];
      apply suffix_visible in Ec; simpl in Ec; lia.
  - destruct (dict_getitem entry "title") as [tv|e]; cbn [fst]; [|exact Hs].
    destruct (py_str tv) as [t|e]; cbn [fst]; [|exact Hs].
    destruct (pp_write page _); cbn [fst]; [|exact Hs].
    apply saved_ok_snoc; [exact Hs|]. eexists. split; [reflexivity|].
    rewrite forallb_app, sanitize_filename_ok_chars, length_app. split; [reflexivity|simpl; lia].
Qed.

Lemma preserves_for_each {S A} (P : S -> Prop) (f : A -> M S unit) (l : list A) :
  (forall x, preserves P (f x)) -> preserves P (for_each f l).
Proof.
  intros Hf. induction l as [|x l IH]; simpl; [apply preserves_ret|].
  apply preserves_bind; [apply Hf|intros _; exact IH].
Qed.

Lemma download_saved_ok page href dest_dir entry :
  saved_ok dest_dir (download_pdf_from_course_page page href dest_dir entry).
Proof.
  unfold download_pdf_from_course_page.
  apply preserves_try_except; [| |intros p []].
  - unfold download_body. repeat preserves_step.
    apply preserves_for_each. intros x. apply download_one_saved_ok.
  - intros e. apply preserves_ret.
Qed.


Lemma download_one_adds page dest_dir entry li :
  adds_at_most_one (download_one page dest_dir entry li).
Proof.
  destruct li as [h n]. intros s. unfold download_one, bind, lift, ret, modify.
  destruct (pp_get page _) as [[|]|e]; cbn [negb fst]; [|lia|lia].
  destruct (pp_body page _); cbn [fst]; [|lia].
  destruct (match n with [] => false | _ :: _ => true end && _); cbn [fst].
  - destruct (pp_write page _); cbn [fst]; rewrite ?length_app; simpl; unfold pystr in *; lia.
  - destruct (dict_getitem entry "title") as [tv|e]; cbn [fst]; [|lia].
    destruct (py_str tv) as [t|e]; cbn [fst]; [|lia].
    destruct (pp_write page _); cbn [fst]; rewrite ?length_app; simpl; unfold pystr in *; lia.
Qed.

Lemma for_each_length {A B} (f : B -> M (list A) unit) (l : list B) (s : list A) :
  (forall x, adds_at_most_one (f x)) ->
  List.length (fst (for_each f l s)) <= List.length s + List.length l.
Proof.
  intros Hf. revert s. induction l as [|x l IH]; intros s; simpl; [unfold ret; simpl; lia|].
  unfold bind. pose proof (Hf x s) as H1.
  destruct (f x s) as [s' [u|e]]; simpl in *; [specialize (IH s'); lia|lia].
Qed.

(** ** Further lemmas on the row parsers and the crawl loops *)

Ltac peel H :=
  let s1 := fresh "s" in let a := fresh "a" in let Hm := fresh "Hm" in
  apply bind_ok_inv in H as [s1 [a [Hm H]]]; cbv beta in H.

Lemma dict_set_new {V} (d : dict V) (k : string) (v : V) :
  dict_get d k = None -> dict_set d k v = d ++ [(k, v)].
Proof.
  induction d as [|[k' v'] d IH]; simpl; [reflexivity|].
  destruct (String.eqb k k') eqn:E; [discriminate|]. intros H. rewrite IH by exact H. reflexivity.
Qed.

Lemma dict_update_fresh {V} (d1 d2 : dict V) :
  NoDup (map fst d2) -> (forall k, In k (map fst d2) -> dict_get d1 k = None) ->
  dict_update d1 d2 = d1 ++ d2.
Proof.
  unfold dict_update. revert d1. induction d2 as [|[k v] d2 IH]; intros d1 Hn Hk; simpl.
  - rewrite app_nil_r. reflexivity.
  - inversion Hn as [|? ? Hn1 Hn2]; subst.
    rewrite (dict_set_new d1 k v) by (apply Hk; left; reflexivity).
    rewrite IH; [rewrite <- app_assoc; reflexivity|exact Hn2|].
    intros k' Hk'. rewrite <- (dict_set_new d1 k v) by (apply Hk; left; reflexivity).
    rewrite dict_get_set. destruct (String.eqb k' k) eqn:E.
    + apply String.eqb_eq in E. subst k'. contradiction.
    + apply Hk. right. exact Hk'.
Qed.

Lemma detail_keys_of page href k :
  In k (map fst (scrape_description_page page href)) -> In k detail_keys.
Proof.
  intros Hk. destruct (in_dec string_dec k detail_keys) as [H|H]; [exact H|].
  exfalso. exact (dict_get_in _ _ (scrape_description_page_outside page href k H) Hk).
Qed.

Lemma osgoode_update_append rows e page href :
  In e (scrape_links_from_table rows) ->
  dict_update e (scrape_description_page page href) = e ++ scrape_description_page page href.
Proof.
  intros He. apply dict_update_fresh; [apply scrape_description_page_nodup|].
  intros k Hk. apply dict_get_notin.
  destruct (scrape_links_from_table_in _ _ He) as [row [t [h [_ [_ ->]]]]].
  exact (detail_row_keys_disjoint k (detail_keys_of page href k Hk)).
Qed.

Lemma osgoode_visit_rows_records w i es tr tr' rs :
  osgoode_visit_rows w i es tr = (tr', Ok rs) ->
  forall r, In r rs -> exists e j, In e es /\
    r = dict_update e (scrape_description_page (rw_page (w j)) (entry_href e)).
Proof.
  revert i tr rs. induction es as [|e es IH]; intros i tr rs H r Hr.
  - cbn in H. injection H as _ <-. destruct Hr.
  - cbn [osgoode_visit_rows] in H. peel H. peel H. peel H.
    match type of Hm1 with
    | lift (dict_getitem e _) _ = _ =>
        unfold lift, dict_getitem in Hm1; destruct (dict_get e "href") as [h|] eqn:Eh;
        injection Hm1 as <- Ha; [subst|discriminate]
    end.
    peel H. peel H. peel H. peel H. peel H.
    unfold ret in H. injection H as <- <-.
    destruct Hr as [<-|Hr].
    + exists e, i. split; [left; reflexivity|]. unfold entry_href. rewrite Eh. reflexivity.
    + match goal with
      | Hrec : osgoode_visit_rows w (S i) es _ = _ |- _ =>
          destruct (IH _ _ _ Hrec r Hr) as [e' [j [He' ->]]]
      end.
      exists e', j. split; [right|]; auto.
Qed.

Lemma outlines_visit_rows_records w i d es tr tr' rs :
  outlines_visit_rows w i d es tr = (tr', Ok rs) ->
  forall r, In r rs -> exists e j, In e es /\
    r = dict_set e "pdf_paths"
          (VList (download_pdf_from_course_page (or_page (w j)) (entry_href_v e) d e)).
Proof.
  revert i tr rs. induction es as [|e es IH]; intros i tr rs H r Hr.
  - cbn in H. injection H as _ <-. destruct Hr.
  - cbn [outlines_visit_rows] in H. do 11 peel H.
    unfold ret in H. injection H as <- <-. unfold lift in *.
    match goal with
    | Hv : (_, dict_getitem e "href") = (_, Ok ?hv), Hp : (_, py_str ?hv) = (_, Ok ?h) |- _ =>
        unfold dict_getitem in Hv; destruct (dict_get e "href") as [v|] eqn:Eh;
        injection Hv as _ Hv; [subst v|discriminate];
        assert (Ehv : entry_href_v e = h)
          by (unfold entry_href_v; rewrite Eh; destruct hv; injection Hp as _ Hp;
              [exact Hp|discriminate])
    end.
    destruct Hr as [<-|Hr].
    + exists e, i. split; [left; reflexivity|]. rewrite Ehv.
      destruct (download_pdf_from_course_page _ _ _ _); reflexivity.
    + match goal with
      | Hrec : outlines_visit_rows w (S i) d es _ = _ |- _ =>
          destruct (IH _ _ _ Hrec r Hr) as [e' [j [He' ->]]]
      end.
      exists e', j. split; [right|]; auto.
Qed.

Lemma osgoode_tabs_get tabs acc tr tr' all t recs :
  osgoode_tabs tabs acc tr = (tr', Ok all) -> dict_get all t = Some recs ->
  dict_get acc t = Some recs \/
  exists w tr0 tr1, In (t, w) tabs /\ osgoode_tab w tr0 = (tr1, Ok recs).
Proof.
  revert acc tr. induction tabs as [|[name w] tabs IH]; intros acc tr H Hg.
  - cbn in H. injection H as _ <-. left. exact Hg.
  - cbn [osgoode_tabs] in H. apply bind_ok_inv in H as [s1 [ents [Ht H]]]. cbv beta in H.
    destruct (IH _ _ H Hg) as [Hs|[w' [tr0 [tr1 [Hin Hw]]]]].
    + rewrite dict_get_set in Hs. destruct (String.eqb t name) eqn:E.
      * apply String.eqb_eq in E. subst name. injection Hs as <-.
        right. exists w, tr, s1. split; [left; reflexivity|exact Ht].
      * left. exact Hs.
    + right. exists w', tr0, tr1. split; [right; exact Hin|exact Hw].
Qed.

Lemma outlines_tabs_get tabs acc tr tr' all t recs :
  outlines_tabs tabs acc tr = (tr', Ok all) -> dict_get all t = Some recs ->
  dict_get acc t = Some recs \/
  exists folder w tr0 tr1, In (t, folder, w) tabs /\ outlines_tab folder w tr0 = (tr1, Ok recs).
Proof.
  revert acc tr. induction tabs as [|[[name folder] w] tabs IH]; intros acc tr H Hg.
  - cbn in H. injection H as _ <-. left. exact Hg.
  - cbn [outlines_tabs] in H. apply bind_ok_inv in H as [s1 [ents [Ht H]]]. cbv beta in H.
    destruct (IH _ _ H Hg) as [Hs|[f' [w' [tr0 [tr1 [Hin Hw]]]]]].
    + rewrite dict_get_set in Hs. destruct (String.eqb t name) eqn:E.
      * apply String.eqb_eq in E. subst name. injection Hs as <-.
        right. exists folder, w, tr, s1. split; [left; reflexivity|exact Ht].
      * left. exact Hs.
    + right. exists f', w', tr0, tr1. split; [right; exact Hin|exact Hw].
Qed.

Lemma osgoode_tab_records w tr tr1 recs :
  osgoode_tab w tr = (tr1, Ok recs) ->
  forall r, In r recs -> exists e j, In e (scrape_links_from_table (tw_rows w)) /\
    r = dict_update e (scrape_description_page (rw_page (tw_row_world w j)) (entry_href e)).
Proof.
  unfold osgoode_tab. intros H. peel H. peel H. cbv zeta in H.
  exact (osgoode_visit_rows_records _ _ _ _ _ _ H).
Qed.

Lemma outlines_tab_records d w tr tr1 recs :
  outlines_tab d w tr = (tr1, Ok recs) ->
  forall r, In r recs -> exists e j, In e (scrape_course_links (ot_rows w)) /\
    r = dict_set e "pdf_paths"
          (VList (download_pdf_from_course_page (or_page (ot_row_world w j)) (entry_href_v e) d e)).
Proof.
  unfold outlines_tab. intros H. peel H. peel H. cbv zeta in H.
  exact (outlines_visit_rows_records _ _ _ _ _ _ _ H).
Qed.

Lemma osgoode_visit_rows_raise w i es tr j e :
  Forall (fun e => (exists v, dict_get e "title" = Some v) /\
                   (exists v, dict_get e "section" = Some v) /\
                   dict_get e "href" = Some (entry_href e)) es ->
  j < List.length es ->
  (forall i', i' < j -> rw_back (w (i + i')) = Ok tt /\ rw_click (w (i + i')) = Ok tt) ->
  row_raises (rw_back (w (i + j))) (rw_click (w (i + j))) e ->
  snd (osgoode_visit_rows w i es tr) = Exc e.
Proof.
  intros Hes. revert i tr j.
  induction Hes as [|x es [[t Ht] [[s Hs] Hh]] Hes IH]; intros i tr j Hj Hpre Hf;
    [simpl in Hj; lia|].
  cbn [osgoode_visit_rows]. unfold bind, lift, emit, modify, ret, dict_getitem.
  rewrite Ht, Hs, Hh. destruct j as [|j].
  - rewrite Nat.add_0_r in Hf. destruct Hf as [Hb|[Hb Hc]]; rewrite Hb; [reflexivity|].
    rewrite Hc. reflexivity.
  - destruct (Hpre 0 ltac:(lia)) as [Hb Hc]. rewrite Nat.add_0_r in Hb, Hc. rewrite Hb, Hc.
    assert (Hpre' : forall i', i' < j ->
              rw_back (w (S i + i')) = Ok tt /\ rw_click (w (S i + i')) = Ok tt)
      by (intros i' Hi; replace (S i + i') with (i + S i') by lia; apply Hpre; lia).
    assert (Hf' : row_raises (rw_back (w (S i + j))) (rw_click (w (S i + j))) e)
      by (replace (S i + j) with (i + S j) by lia; exact Hf).
    match goal with
    | |- context [osgoode_visit_rows w (S i) es ?t] =>
        pose proof (IH (S i) t j ltac:(simpl in Hj; lia) Hpre' Hf') as H;
        destruct (osgoode_visit_rows w (S i) es t) as [t' [v|e']]
    end; simpl in H |- *; congruence.
Qed.

Lemma outlines_visit_rows_raise w i d es tr j e :
  Forall (fun e => (exists v, dict_get e "title" = Some v) /\
                   (exists v, dict_get e "course_number" = Some v) /\
                   (exists v, dict_get e "section" = Some v) /\
                   (exists v, dict_get e "professor" = Some v) /\
                   dict_get e "href" = Some (VStr (entry_href_v e))) es ->
  j < List.length es ->
  (forall i', i' < j -> or_back (w (i + i')) = Ok tt /\ or_click (w (i + i')) = Ok tt) ->
  row_raises (or_back (w (i + j))) (or_click (w (i + j))) e ->
  snd (outlines_visit_rows w i d es tr) = Exc e.
Proof.
  intros Hes. revert i tr j.
  induction Hes as [|x es [[t Ht] [[n Hn] [[s Hs] [[p Hp] Hh]]]] Hes IH]; intros i tr j Hj Hpre Hf;
    [simpl in Hj; lia|].
  cbn [outlines_visit_rows]. unfold bind, lift, emit, modify, ret, dict_getitem.
  rewrite Ht, Hn, Hs, Hp, Hh. cbn [py_str]. destruct j as [|j].
  - rewrite Nat.add_0_r in Hf. destruct Hf as [Hb|[Hb Hc]]; rewrite Hb; [reflexivity|].
    rewrite Hc. reflexivity.
  - destruct (Hpre 0 ltac:(lia)) as [Hb Hc]. rewrite Nat.add_0_r in Hb, Hc. rewrite Hb, Hc.
    assert (Hpre' : forall i', i' < j ->
              or_back (w (S i + i')) = Ok tt /\ or_click (w (S i + i')) = Ok tt)
      by (intros i' Hi; replace (S i + i') with (i + S i') by lia; apply Hpre; lia).
    assert (Hf' : row_raises (or_back (w (S i + j))) (or_click (w (S i + j))) e)
      by (replace (S i + j) with (i + S j) by lia; exact Hf).
    match goal with
    | |- context [outlines_visit_rows w (S i) d es ?t] =>
        pose proof (IH (S i) t j ltac:(simpl in Hj; lia) Hpre' Hf') as H;
        destruct (outlines_visit_rows w (S i) d es t) as [t' [v|e']]
    end; simpl in H |- *; congruence.
Qed.

Lemma osgoode_tab_raise w tr e :
  osgoode_tab_raises w e -> snd (osgoode_tab w tr) = Exc e.
Proof.
  intros [Hc|[Hc [j [Hj [Hpre Hf]]]]];
    unfold osgoode_tab, bind, lift, emit, modify; rewrite Hc; [reflexivity|].
  cbv beta iota zeta.
  apply (osgoode_visit_rows_raise _ 0 _ _ j); [apply scrape_links_from_table_keys|exact Hj|exact Hpre|exact Hf].
Qed.

Lemma outlines_tab_raise d w tr e :
  outlines_tab_raises w e -> snd (outlines_tab d w tr) = Exc e.
Proof.
  intros [Hc|[Hc [j [Hj [Hpre Hf]]]]];
    unfold outlines_tab, bind, lift, emit, modify; rewrite Hc; [reflexivity|].
  cbv beta iota zeta.
  apply (outlines_visit_rows_raise _ 0 _ _ _ j); [apply scrape_course_links_keys|exact Hj|exact Hpre|exact Hf].
Qed.

Lemma osgoode_tabs_raise pre t w0 post acc tr e :
  (forall x, In x pre -> tw_click (snd x) = Ok tt /\ restores_ok (tw_row_world (snd x))) ->
  osgoode_tab_raises w0 e ->
  snd (osgoode_tabs (pre ++ (t, w0) :: post) acc tr) = Exc e.
Proof.
  intros Hpre Hw. revert acc tr. induction pre as [|[n w1] pre IH]; intros acc tr.
  - cbn [app osgoode_tabs]. unfold bind. pose proof (osgoode_tab_raise w0 tr e Hw) as H.
    destruct (osgoode_tab w0 tr) as [t' [v|e']]; simpl in H |- *; congruence.
  - destruct (Hpre (n, w1) (or_introl eq_refl)) as [Hc Hr].
    cbn [app osgoode_tabs]. unfold bind at 1. rewrite osgoode_tab_ok by assumption.
    apply IH. intros x Hx. apply Hpre. right. exact Hx.
Qed.

Lemma outlines_tabs_raise pre t f w0 post acc tr e :
  (forall x, In x pre -> ot_click (snd x) = Ok tt /\ orestores_ok (ot_row_world (snd x))) ->
  outlines_tab_raises w0 e ->
  snd (outlines_tabs (pre ++ (t, f, w0) :: post) acc tr) = Exc e.
Proof.
  intros Hpre Hw. revert acc tr. induction pre as [|[[n f1] w1] pre IH]; intros acc tr.
  - cbn [app outlines_tabs]. unfold bind. pose proof (outlines_tab_raise f w0 tr e Hw) as H.
    destruct (outlines_tab f w0 tr) as [t' [v|e']]; simpl in H |- *; congruence.
  - destruct (Hpre (n, f1, w1) (or_introl eq_refl)) as [Hc Hr].
    cbn [app outlines_tabs]. unfold bind at 1. rewrite outlines_tab_ok by assumption.
    apply IH. intros x Hx. apply Hpre. right. exact Hx.
Qed.

Lemma download_one_all_ok page dest_dir entry li s :
  (forall u, pp_get page u = Ok true /\ pp_body page u = Ok tt) ->
  (forall p, pp_write page p = Ok tt) ->
  (exists t, dict_get entry "title" = Some (VStr t)) ->
  exists p, download_one page dest_dir entry li s = (s ++ [p], Ok tt).
Proof.
  intros Hg Hw [t Ht]. destruct li as [h n]. unfold download_one, bind, lift, ret, modify.
  match goal with |- context [pp_get page ?u] => destruct (Hg u) as [E1 E2]; rewrite E1, E2 end.
  cbn [negb]. unfold dict_getitem. rewrite Ht. cbn [py_str].
  destruct (match n with [] => false | _ :: _ => true end && _); rewrite Hw; eexists; reflexivity.
Qed.

Lemma for_each_all_ok {A B} (f : B -> M (list A) unit) (l : list B) (s : list A) :
  (forall x s, exists p, f x s = (s ++ [p], Ok tt)) ->
  snd (for_each f l s) = Ok tt /\ List.length (fst (for_each f l s)) = List.length s + List.length l.
Proof.
  intros Hf. revert s. induction l as [|x l IH]; intros s; simpl.
  - unfold ret. simpl. split; [reflexivity|lia].
  - unfold bind. destruct (Hf x s) as [p ->]. destruct (IH (s ++ [p])) as [H1 H2].
    split; [exact H1|]. rewrite H2, length_app. simpl. lia.
Qed.

(** Both row parsers handle each table row on its own: parsing the rows of
    two tables one after the other gives the entries of the first followed
    by those of the second. *)
Theorem row_parsers_app (r1 r2 : list Row) :
  scrape_links_from_table (r1 ++ r2) = scrape_links_from_table r1 ++ scrape_links_from_table r2 /\
  scrape_course_links (r1 ++ r2) = scrape_course_links r1 ++ scrape_course_links r2.
Proof.
  split; induction r1 as [|row r1 IH]; simpl; try reflexivity;
    destruct (row_link row) as [[t h]|]; try exact IH;
    try (destruct (_ <? 12); [exact IH|]); rewrite IH; reflexivity.
Qed.

(** In scrape_osgoode.py, [entry.update(detail)] on a parsed entry adds the
    detail fields after the row fields, in the order of the detail dict:
    no row field is overwritten or moved. *)
Theorem osgoode_update_appends (rows : list Row) (e : dict pystr) (page : DetailPage) (href : pystr) :
  In e (scrape_links_from_table rows) ->
  dict_update e (scrape_description_page page href) = e ++ scrape_description_page page href.
Proof. apply osgoode_update_append. Qed.

Lemma osgoode_update_appends_witness :
  In (hd [] (scrape_links_from_table [data_row (lit "A") 12]))
     (scrape_links_from_table [data_row (lit "A") 12]) /\
  dict_update (hd [] (scrape_links_from_table [data_row (lit "A") 12]))
              (scrape_description_page page_A (lit "x")) =
  hd [] (scrape_links_from_table [data_row (lit "A") 12]) ++ scrape_description_page page_A (lit "x").
Proof.
  assert (H : In (hd [] (scrape_links_from_table [data_row (lit "A") 12]))
                 (scrape_links_from_table [data_row (lit "A") 12]))
    by (left; reflexivity).
  split; [exact H|exact (osgoode_update_appends _ _ page_A (lit "x") H)].
Defined.

(** Every path returned by [download_pdf_from_course_page] is
    [dest_dir/f] for a file name [f] of at least three characters with
    none of the characters the first substitution of [sanitize_filename]
    replaces (so no slash or backslash): the files are written directly
    inside [dest_dir]. *)
Theorem download_pdf_saved_paths (page : PdfPage) (href dest_dir : pystr) (entry : dict pyval)
    (p : pystr) :
  In p (download_pdf_from_course_page page href dest_dir entry) ->
  exists f, p = dest_dir ++ lit "/" ++ f /\ forallb ok_char f = true /\ 3 <= List.length f.
Proof. intros H. exact (download_saved_ok page href dest_dir entry p H). Qed.

Lemma download_pdf_saved_paths_witness :
  In (lit "DATA/F25/LAW 1001 Outline.PDF")
     (download_pdf_from_course_page pdf_page_two (lit "/outlines2526.nsf/Courses/1") (lit "DATA/F25")
        (hd [] (scrape_course_links [outline_row]))) /\
  exists f, lit "DATA/F25/LAW 1001 Outline.PDF" = lit "DATA/F25" ++ lit "/" ++ f /\
    forallb ok_char f = true /\ 3 <= List.length f.
Proof.
  assert (H : In (lit "DATA/F25/LAW 1001 Outline.PDF")
     (download_pdf_from_course_page pdf_page_two (lit "/outlines2526.nsf/Courses/1") (lit "DATA/F25")
        (hd [] (scrape_course_links [outline_row])))) by (vm_compute; left; reflexivity).
  split; [exact H|exact (download_pdf_saved_paths _ _ _ _ _ H)].
Defined.

(** [download_pdf_from_course_page] saves at most one file per [$File]
    link the page lists, and none when [page.goto], the wait after it or
    the link listing raises, whatever fails on the way. *)
Theorem download_pdf_count_le (page : PdfPage) (href dest_dir : pystr) (entry : dict pyval) :
  List.length (download_pdf_from_course_page page href dest_dir entry) <=
  match pp_goto page (if startswith href (lit "http") then href else OUT_BASE_URL ++ href),
        pp_wait page, pp_links page with
  | Ok _, Ok _, Ok l => List.length l
  | _, _, _ => 0
  end.
Proof.
  unfold download_pdf_from_course_page, try_except, download_body, bind, lift.
  destruct (pp_goto page _); [|simpl; lia]. destruct (pp_wait page); [|simpl; lia].
  destruct (pp_links page) as [l|e]; [|simpl; lia].
  destruct l as [|li l]; [simpl; lia|].
  pose proof (for_each_length (download_one page dest_dir entry) (li :: l) []
                (download_one_adds page dest_dir entry)) as H.
  destruct (for_each _ (li :: l) []) as [s [u|e]]; simpl in *; lia.
Qed.

(** When the page loads, lists [l], every download answers [ok] and every
    write succeeds, and the entry has a string [title], one file is saved
    per link. *)
Theorem download_pdf_count_all_ok (page : PdfPage) (href dest_dir : pystr) (entry : dict pyval)
    (l : list (pystr * pystr)) :
  (forall u, pp_goto page u = Ok tt) -> pp_wait page = Ok tt -> pp_links page = Ok l ->
  (forall u, pp_get page u = Ok true /\ pp_body page u = Ok tt) ->
  (forall q, pp_write page q = Ok tt) ->
  (exists t, dict_get entry "title" = Some (VStr t)) ->
  List.length (download_pdf_from_course_page page href dest_dir entry) = List.length l.
Proof.
  intros Hgo Hwa Hl Hg Hw Ht.
  unfold download_pdf_from_course_page, try_except, download_body, bind, lift.
  rewrite Hgo, Hwa, Hl.
  destruct l as [|li l]; [reflexivity|].
  destruct (for_each_all_ok (download_one page dest_dir entry) (li :: l) []
              (fun x s => download_one_all_ok page dest_dir entry x s Hg Hw Ht)) as [H1 H2].
  destruct (for_each _ (li :: l) []) as [s r]. simpl in H1, H2. subst r. exact H2.
Qed.

Lemma download_pdf_count_all_ok_witness :
  List.length (download_pdf_from_course_page pdf_page_two (lit "/outlines2526.nsf/Courses/1")
                 (lit "DATA/F25") (hd [] (scrape_course_links [outline_row]))) = 2.
Proof.
  apply (download_pdf_count_all_ok pdf_page_two _ _ _
           [(lit "/outlines2526.nsf/0/1/$File/LAW1001.pdf", lit "LAW 1001 Outline.PDF");
            (lit "/outlines2526.nsf/0/1/$File/list", lit "Reading list")]);
    try reflexivity.
  - intros u. split; reflexivity.
  - exists (lit "Course A"). reflexivity.
Defined.

(** In scrape_osgoode.py an exception from a tab activation, or from the
    return to the table after a row, is not caught: when the tabs before
    tab [t] complete and tab [t] raises [e], the crawl raises [e]. *)
Theorem osgoode_crawl_raises (w : string -> TabWorld) (pre : list string) (t : string)
    (post : list string) (e : pystr) :
  TAB_BUTTONS = pre ++ t :: post ->
  (forall t', In t' pre -> tw_click (w t') = Ok tt /\ restores_ok (tw_row_world (w t'))) ->
  osgoode_tab_raises (w t) e ->
  snd (osgoode_crawl w) = Exc e.
Proof.
  intros Ht Hpre Hw. unfold osgoode_crawl. rewrite Ht, map_app. cbn [map].
  apply osgoode_tabs_raise; [|exact Hw].
  intros x Hx. apply in_map_iff in Hx as [t' [<- Ht']]. apply Hpre. exact Ht'.
Qed.

Lemma osgoode_crawl_raises_witness :
  snd (osgoode_crawl (fun t => if String.eqb t "Fall Seminars" then tab_back_fails else empty_tab)) =
  Exc (lit "Timeout 30000ms exceeded.").
Proof.
  apply (osgoode_crawl_raises _ ["Fall Courses"%string] "Fall Seminars"
           ["Winter Courses"; "Winter Seminars"]%string).
  - reflexivity.
  - intros t' [<-|[]]. split; [reflexivity|]. intros i. split; reflexivity.
  - right. split; [reflexivity|]. exists 1. split; [apply Nat.ltb_lt; vm_compute; reflexivity|].
    split; [|left; reflexivity].
    intros i Hi. replace i with 0 by lia. split; reflexivity.
Defined.

(** The same holds in scrape_outlines.py: an exception from [click_tab],
    or from the return to the listing after a row, ends the crawl with that
    exception. *)
Theorem outlines_crawl_raises (w : string -> OTabWorld) (pre : list (string * pystr))
    (t : string) (folder : pystr) (post : list (string * pystr)) (e : pystr) :
  TABS = pre ++ (t, folder) :: post ->
  (forall tf, In tf pre -> ot_click (w (fst tf)) = Ok tt /\ orestores_ok (ot_row_world (w (fst tf)))) ->
  outlines_tab_raises (w t) e ->
  snd (outlines_crawl w) = Exc e.
Proof.
  intros Ht Hpre Hw. unfold outlines_crawl. rewrite Ht, map_app. cbn [map fst snd].
  apply outlines_tabs_raise; [|exact Hw].
  intros x Hx. apply in_map_iff in Hx as [tf [<- Htf]]. apply Hpre. exact Htf.
Qed.

Lemma outlines_crawl_raises_witness :
  snd (outlines_crawl (fun _ => otab_back_fails)) = Exc (lit "Timeout 30000ms exceeded.").
Proof.
  apply (outlines_crawl_raises _ [] "Fall" (lit "DATA/F25") [("Winter", lit "DATA/W26")]%string).
  - reflexivity.
  - intros tf [].
  - right. split; [reflexivity|]. exists 1. split; [apply Nat.ltb_lt; vm_compute; reflexivity|].
    split; [|left; reflexivity].
    intros i Hi. replace i with 0 by lia. split; reflexivity.
Defined.

(** When every tab activation and every return to the table succeed,
    scrape_osgoode.py collects the four tabs in the order of
    [TAB_BUTTONS], each with all its parsed rows in table order, each row
    updated with the details of its own page. *)
Theorem osgoode_crawl_result (w : string -> TabWorld) :
  (forall t, In t TAB_BUTTONS -> tw_click (w t) = Ok tt /\ restores_ok (tw_row_world (w t))) ->
  snd (osgoode_crawl w) =
  Ok (map (fun t => (t, osgoode_enrich (tw_row_world (w t)) 0 (scrape_links_from_table (tw_rows (w t)))))
          TAB_BUTTONS).
Proof.
  intros Hw.
  destruct (Hw "Fall Courses"%string ltac:(simpl; tauto)) as [c1 r1].
  destruct (Hw "Fall Seminars"%string ltac:(simpl; tauto)) as [c2 r2].
  destruct (Hw "Winter Courses"%string ltac:(simpl; tauto)) as [c3 r3].
  destruct (Hw "Winter Seminars"%string ltac:(simpl; tauto)) as [c4 r4].
  unfold osgoode_crawl. cbn [map TAB_BUTTONS osgoode_tabs]. unfold bind.
  repeat (rewrite osgoode_tab_ok by assumption; cbv beta iota).
  reflexivity.
Qed.

Lemma osgoode_crawl_result_witness :
  snd (osgoode_crawl (scenario page_timeout)) =
  Ok (map (fun t => (t, osgoode_enrich (tw_row_world (scenario page_timeout t)) 0
                          (scrape_links_from_table (tw_rows (scenario page_timeout t)))))
          TAB_BUTTONS).
Proof.
  apply osgoode_crawl_result. intros t _. unfold scenario.
  destruct (String.eqb t "Fall Courses"); split; try reflexivity; intros i; split; reflexivity.
Defined.

(** When every [click_tab] and every return to the listing succeed,
    scrape_outlines.py collects the tabs [Fall] and [Winter] in this
    order, each with all its parsed rows in table order, each row given the
    [pdf_paths] that [download_pdf_from_course_page] returned for its page
    and its tab folder. *)
Theorem outlines_crawl_result (w : string -> OTabWorld) :
  (forall tf, In tf TABS -> ot_click (w (fst tf)) = Ok tt /\ orestores_ok (ot_row_world (w (fst tf)))) ->
  snd (outlines_crawl w) =
  Ok (map (fun tf => (fst tf, outlines_enrich (ot_row_world (w (fst tf))) 0 (snd tf)
                                (scrape_course_links (ot_rows (w (fst tf)))))) TABS).
Proof.
  intros Hw.
  destruct (Hw ("Fall"%string, lit "DATA/F25") ltac:(simpl; tauto)) as [c1 r1].
  destruct (Hw ("Winter"%string, lit "DATA/W26") ltac:(simpl; tauto)) as [c2 r2].
  cbn [fst] in c1, r1, c2, r2.
  unfold outlines_crawl. cbn [map TABS outlines_tabs fst snd]. unfold bind.
  repeat (rewrite outlines_tab_ok by assumption; cbv beta iota).
  reflexivity.
Qed.

Lemma outlines_crawl_result_witness :
  snd (outlines_crawl (fun _ => otab_with [outline_row] pdf_page_two)) =
  Ok (map (fun tf => (fst tf, outlines_enrich (ot_row_world (otab_with [outline_row] pdf_page_two)) 0
                                (snd tf) (scrape_course_links (ot_rows (otab_with [outline_row] pdf_page_two)))))
          TABS).
Proof.
  apply (outlines_crawl_result (fun _ => otab_with [outline_row] pdf_page_two)).
  intros tf _. split; [reflexivity|]. intros i. split; reflexivity.
Defined.

(** Every record of a completed crawl of scrape_osgoode.py sits under one
    of the four tab names and is a row entry parsed from that tab table,
    followed by the fields of a [scrape_description_page] result for the
    entry [href]: whatever failed on the way, no record is missing its row
    fields and no field comes from elsewhere. *)
Theorem osgoode_crawl_records (w : string -> TabWorld) (all : dict (list (dict pystr)))
    (t : string) (recs : list (dict pystr)) (r : dict pystr) :
  snd (osgoode_crawl w) = Ok all -> dict_get all t = Some recs -> In r recs ->
  In t TAB_BUTTONS /\
  exists e j, In e (scrape_links_from_table (tw_rows (w t))) /\
    r = e ++ scrape_description_page (rw_page (tw_row_world (w t) j)) (entry_href e).
Proof.
  intros H Hg Hr. unfold osgoode_crawl in H.
  destruct (osgoode_tabs _ [] []) as [tr' res] eqn:E. simpl in H. subst res.
  destruct (osgoode_tabs_get _ _ _ _ _ _ _ E Hg) as [Hn|[w' [tr0 [tr1 [Hin Ht]]]]];
    [discriminate|].
  apply in_map_iff in Hin as [t' [Heq Hin]]. injection Heq as -> ->.
  split; [exact Hin|].
  destruct (osgoode_tab_records _ _ _ _ Ht r Hr) as [e [j [He ->]]].
  exists e, j. split; [exact He|]. exact (osgoode_update_append _ _ _ _ He).
Qed.

Lemma osgoode_crawl_records_witness :
  In "Fall Courses"%string TAB_BUTTONS /\
  exists e j, In e (scrape_links_from_table (tw_rows (scenario page_timeout "Fall Courses"%string))) /\
    hd [] (match dict_get (match snd (osgoode_crawl (scenario page_timeout)) with
                           | Ok a => a | Exc _ => [] end) "Fall Courses" with
           | Some l => l | None => [] end) =
    e ++ scrape_description_page (rw_page (tw_row_world (scenario page_timeout "Fall Courses"%string) j))
           (entry_href e).
Proof.
  apply (osgoode_crawl_records (scenario page_timeout)
           (match snd (osgoode_crawl (scenario page_timeout)) with Ok a => a | Exc _ => [] end)
           "Fall Courses"%string
           (match dict_get (match snd (osgoode_crawl (scenario page_timeout)) with
                            | Ok a => a | Exc _ => [] end) "Fall Courses" with
            | Some l => l | None => [] end)); vm_compute;
    first [reflexivity|left; reflexivity].
Defined.

(** Every record of a completed crawl of scrape_outlines.py sits under a
    tab name of [TABS] and is a row entry parsed from that tab table with
    [pdf_paths] added last, a list of paths of files written directly in
    the folder of that tab. *)
Theorem outlines_crawl_records (w : string -> OTabWorld) (all : dict (list (dict pyval)))
    (t : string) (recs : list (dict pyval)) (r : dict pyval) :
  snd (outlines_crawl w) = Ok all -> dict_get all t = Some recs -> In r recs ->
  exists folder e paths, In (t, folder) TABS /\ In e (scrape_course_links (ot_rows (w t))) /\
    r = e ++ [("pdf_paths"%string, VList paths)] /\ saved_ok folder paths.
Proof.
  intros H Hg Hr. unfold outlines_crawl in H.
  destruct (outlines_tabs _ [] []) as [tr' res] eqn:E. simpl in H. subst res.
  destruct (outlines_tabs_get _ _ _ _ _ _ _ E Hg) as [Hn|[f [w' [tr0 [tr1 [Hin Ht]]]]]];
    [discriminate|].
  apply in_map_iff in Hin as [[t' f'] [Heq Hin]]. cbn [fst snd] in Heq.
  injection Heq as -> -> ->.
  destruct (outlines_tab_records _ _ _ _ _ Ht r Hr) as [e [j [He ->]]].
  eexists f, e, _. split; [exact Hin|]. split; [exact He|]. split.
  - apply dict_set_new.
    destruct (scrape_course_links_in _ _ He) as [row [t0 [h [_ [_ ->]]]]]. reflexivity.
  - apply download_saved_ok.
Qed.

Lemma outlines_crawl_records_witness :
  exists folder e paths, In ("Fall"%string, folder) TABS /\
    In e (scrape_course_links (ot_rows (otab_with [outline_row] pdf_page_two))) /\
    hd [] (match dict_get (match snd (outlines_crawl (fun _ => otab_with [outline_row] pdf_page_two)) with
                           | Ok a => a | Exc _ => [] end) "Fall" with
           | Some l => l | None => [] end) =
    e ++ [("pdf_paths"%string, VList paths)] /\ saved_ok folder paths.
Proof.
  apply (outlines_crawl_records (fun _ => otab_with [outline_row] pdf_page_two)
           (match snd (outlines_crawl (fun _ => otab_with [outline_row] pdf_page_two)) with
            | Ok a => a | Exc _ => [] end)
           "Fall"%string
           (match dict_get (match snd (outlines_crawl (fun _ => otab_with [outline_row] pdf_page_two)) with
                            | Ok a => a | Exc _ => [] end) "Fall" with
            | Some l => l | None => [] end)); vm_compute;
    first [reflexivity|left; reflexivity].
Defined.
